(** * memory_agent.tools: the two memory tools, embedded and verified

    The module [src/memory_agent/tools.py] defines two coroutines,
    [upsert_memory] and [search_memories].  Both shape their arguments and
    delegate to an injected [BaseStore].  This development embeds

    - the Python values that flow through the tools (None, int, float, str,
      list, dict) together with [repr()] and the f-string field as CPython
      computes them, including the two ways in which they fail: an int with
      more digits than the interpreter prints, and a nesting deeper than the
      interpreter's recursion limit allows;
    - [uuid.UUID], [uuid.uuid4] and [datetime.isoformat];
    - the two tools as programs of a small monad whose actions are the calls
      the tools make to their environment: [os.urandom], [datetime.now],
      [store.aput] and [store.asearch];
    - an interpreter of such programs over a world made of an entropy source,
      a clock, a store and the log of the requests sent to the store. *)

From Stdlib Require Import ZArith Lia Ascii String List.
From stdpp Require Import base tactics option list strings pretty gmap.

Set Warnings "-register-all".

Local Open Scope string_scope.
Local Open Scope Z_scope.

(** ** Text helpers *)

Module Text.

(** [sep.join(parts)] *)
Fixpoint join (sep : string) (parts : list string) : string :=
  match parts with
  | [] => ""
  | [p] => p
  | p :: rest => p +:+ sep +:+ join sep rest
  end.

Definition of_char (c : ascii) : string := String c "".

Definition code (c : ascii) : Z := Z.of_N (N_of_ascii c).

(** [s.count(c)] for a one-character [c]. *)
Fixpoint count (c : ascii) (s : string) : nat :=
  match s with
  | "" => O
  | String a s' => (if Ascii.eqb a c then 1 else 0)%nat + count c s'
  end.

Fixpoint repeat (c : ascii) (n : nat) : string :=
  match n with
  | O => ""
  | S n' => String c (repeat c n')
  end.

(** One digit of a base up to sixteen, lower case as [%x] prints it. *)
Definition digit (d : Z) : ascii :=
  match d with
  | 0 => "0" | 1 => "1" | 2 => "2" | 3 => "3" | 4 => "4" | 5 => "5"
  | 6 => "6" | 7 => "7" | 8 => "8" | 9 => "9" | 10 => "a" | 11 => "b"
  | 12 => "c" | 13 => "d" | 14 => "e" | _ => "f"
  end%char.

(** The [w] low digits of [n] in base [b], most significant first: what
    [%0wd] (b = 10) and [%0wx] (b = 16) print for [0 <= n < b^w]. *)
Fixpoint fixed (b : Z) (w : nat) (n : Z) : string :=
  match w with
  | O => ""
  | S w' => fixed b w' (n / b) +:+ of_char (digit (n mod b))
  end.

Definition dec (w : nat) (n : Z) : string := fixed 10 w n.
Definition hex (w : nat) (n : Z) : string := fixed 16 w n.

(** [s[i:j]] for [0 <= i <= j]. *)
Fixpoint drop (n : nat) (s : string) : string :=
  match n, s with
  | O, _ => s
  | S n', String _ s' => drop n' s'
  | S _, "" => ""
  end.

Fixpoint take (n : nat) (s : string) : string :=
  match n, s with
  | S n', String a s' => String a (take n' s')
  | _, _ => ""
  end.

Definition slice (i j : nat) (s : string) : string := take (j - i) (drop i s).

End Text.

(** ** Python values *)

(** A float is kept as CPython's [repr] sees it: the shortest string of
    decimal digits that reads back as the same double, with the position of
    the decimal point ([value = 0.d1d2...dn * 10^decpt]), as [_Py_dg_dtoa]
    in mode 0 returns them. *)
Inductive pyfloat : Type :=
| FNan
| FInf (negative : bool)
| FFinite (negative : bool) (digits : list Z) (decpt : Z).

Inductive pyval : Type :=
| PyNone
| PyInt (n : Z)
| PyFloat (x : pyfloat)
| PyStr (s : string)
| PyList (items : list pyval)
| PyDict (entries : list (string * pyval)).

(** A dict keeps its keys in insertion order; the values the tools build and
    the store returns have text keys. *)
Abbreviation pydict := (list (string * pyval)).

(** [d.get(k)], [None] when the key is absent. *)
Fixpoint dict_get (k : string) (d : pydict) : option pyval :=
  match d with
  | [] => None
  | (k', v) :: d' => if String.eqb k k' then Some v else dict_get k d'
  end.

(** [k in d] *)
Definition dict_has (k : string) (d : pydict) : bool :=
  match dict_get k d with Some _ => true | None => false end.

Definition dict_keys (d : pydict) : list string := map fst d.

(** ** Exceptions *)

Record exn : Type := Exn { exn_type : string; exn_msg : string }.

Definition ValueError (msg : string) : exn := Exn "ValueError" msg.
Definition RecursionError (msg : string) : exn := Exn "RecursionError" msg.

(** A computation that returns or raises, and a loop over a list that stops
    at the first exception. *)
Definition and_then {A B} (r : exn + A) (f : A -> exn + B) : exn + B :=
  match r with
  | inl e => inl e
  | inr a => f a
  end.

Fixpoint for_each {A B} (f : A -> exn + B) (l : list A) : exn + list B :=
  match l with
  | [] => inr []
  | a :: l' =>
      and_then (f a) (fun b =>
      and_then (for_each f l') (fun bs => inr (b :: bs)))
  end.

(** ** Text as code points *)

(** A Python [str] is a sequence of code points.  A text of this
    development is its UTF-8 encoding, one [ascii] per byte, so that a
    literal reads as the text it shows.  Concatenation, equality, emptiness
    and the order of texts are the same on both sides; only [repr] looks at
    code points. *)
Module Unicode.

(** The code points [c] for which [chr(c).isprintable()] holds, as inclusive
    ranges: [Py_UNICODE_ISPRINTABLE] over the Unicode 14.0.0 database of
    CPython 3.11. *)
Definition printable_ranges : list (Z * Z) :=
  [(0x20, 0x7e); (0xa1, 0xac); (0xae, 0x377); (0x37a, 0x37f); (0x384, 0x38a);
   (0x38c, 0x38c); (0x38e, 0x3a1); (0x3a3, 0x52f); (0x531, 0x556);
   (0x559, 0x58a); (0x58d, 0x58f); (0x591, 0x5c7); (0x5d0, 0x5ea);
   (0x5ef, 0x5f4); (0x606, 0x61b); (0x61d, 0x6dc); (0x6de, 0x70d);
   (0x710, 0x74a); (0x74d, 0x7b1); (0x7c0, 0x7fa); (0x7fd, 0x82d);
   (0x830, 0x83e); (0x840, 0x85b); (0x85e, 0x85e); (0x860, 0x86a);
   (0x870, 0x88e); (0x898, 0x8e1); (0x8e3, 0x983); (0x985, 0x98c);
   (0x98f, 0x990); (0x993, 0x9a8); (0x9aa, 0x9b0); (0x9b2, 0x9b2);
   (0x9b6, 0x9b9); (0x9bc, 0x9c4); (0x9c7, 0x9c8); (0x9cb, 0x9ce);
   (0x9d7, 0x9d7); (0x9dc, 0x9dd); (0x9df, 0x9e3); (0x9e6, 0x9fe);
   (0xa01, 0xa03); (0xa05, 0xa0a); (0xa0f, 0xa10); (0xa13, 0xa28);
   (0xa2a, 0xa30); (0xa32, 0xa33); (0xa35, 0xa36); (0xa38, 0xa39);
   (0xa3c, 0xa3c); (0xa3e, 0xa42); (0xa47, 0xa48); (0xa4b, 0xa4d);
   (0xa51, 0xa51); (0xa59, 0xa5c); (0xa5e, 0xa5e); (0xa66, 0xa76);
   (0xa81, 0xa83); (0xa85, 0xa8d); (0xa8f, 0xa91); (0xa93, 0xaa8);
   (0xaaa, 0xab0); (0xab2, 0xab3); (0xab5, 0xab9); (0xabc, 0xac5);
   (0xac7, 0xac9); (0xacb, 0xacd); (0xad0, 0xad0); (0xae0, 0xae3);
   (0xae6, 0xaf1); (0xaf9, 0xaff); (0xb01, 0xb03); (0xb05, 0xb0c);
   (0xb0f, 0xb10); (0xb13, 0xb28); (0xb2a, 0xb30); (0xb32, 0xb33);
   (0xb35, 0xb39); (0xb3c, 0xb44); (0xb47, 0xb48); (0xb4b, 0xb4d);
   (0xb55, 0xb57); (0xb5c, 0xb5d); (0xb5f, 0xb63); (0xb66, 0xb77);
   (0xb82, 0xb83); (0xb85, 0xb8a); (0xb8e, 0xb90); (0xb92, 0xb95);
   (0xb99, 0xb9a); (0xb9c, 0xb9c); (0xb9e, 0xb9f); (0xba3, 0xba4);
   (0xba8, 0xbaa); (0xbae, 0xbb9); (0xbbe, 0xbc2); (0xbc6, 0xbc8);
   (0xbca, 0xbcd); (0xbd0, 0xbd0); (0xbd7, 0xbd7); (0xbe6, 0xbfa);
   (0xc00, 0xc0c); (0xc0e, 0xc10); (0xc12, 0xc28); (0xc2a, 0xc39);
   (0xc3c, 0xc44); (0xc46, 0xc48); (0xc4a, 0xc4d); (0xc55, 0xc56);
   (0xc58, 0xc5a); (0xc5d, 0xc5d); (0xc60, 0xc63); (0xc66, 0xc6f);
   (0xc77, 0xc8c); (0xc8e, 0xc90); (0xc92, 0xca8); (0xcaa, 0xcb3);
   (0xcb5, 0xcb9); (0xcbc, 0xcc4); (0xcc6, 0xcc8); (0xcca, 0xccd);
   (0xcd5, 0xcd6); (0xcdd, 0xcde); (0xce0, 0xce3); (0xce6, 0xcef);
   (0xcf1, 0xcf2); (0xd00, 0xd0c); (0xd0e, 0xd10); (0xd12, 0xd44);
   (0xd46, 0xd48); (0xd4a, 0xd4f); (0xd54, 0xd63); (0xd66, 0xd7f);
   (0xd81, 0xd83); (0xd85, 0xd96); (0xd9a, 0xdb1); (0xdb3, 0xdbb);
   (0xdbd, 0xdbd); (0xdc0, 0xdc6); (0xdca, 0xdca); (0xdcf, 0xdd4);
   (0xdd6, 0xdd6); (0xdd8, 0xddf); (0xde6, 0xdef); (0xdf2, 0xdf4);
   (0xe01, 0xe3a); (0xe3f, 0xe5b); (0xe81, 0xe82); (0xe84, 0xe84);
   (0xe86, 0xe8a); (0xe8c, 0xea3); (0xea5, 0xea5); (0xea7, 0xebd);
   (0xec0, 0xec4); (0xec6, 0xec6); (0xec8, 0xecd); (0xed0, 0xed9);
   (0xedc, 0xedf); (0xf00, 0xf47); (0xf49, 0xf6c); (0xf71, 0xf97);
   (0xf99, 0xfbc); (0xfbe, 0xfcc); (0xfce, 0xfda); (0x1000, 0x10c5);
   (0x10c7, 0x10c7); (0x10cd, 0x10cd); (0x10d0, 0x1248); (0x124a, 0x124d);
   (0x1250, 0x1256); (0x1258, 0x1258); (0x125a, 0x125d); (0x1260, 0x1288);
   (0x128a, 0x128d); (0x1290, 0x12b0); (0x12b2, 0x12b5); (0x12b8, 0x12be);
   (0x12c0, 0x12c0); (0x12c2, 0x12c5); (0x12c8, 0x12d6); (0x12d8, 0x1310);
   (0x1312, 0x1315); (0x1318, 0x135a); (0x135d, 0x137c); (0x1380, 0x1399);
   (0x13a0, 0x13f5); (0x13f8, 0x13fd); (0x1400, 0x167f); (0x1681, 0x169c);
   (0x16a0, 0x16f8); (0x1700, 0x1715); (0x171f, 0x1736); (0x1740, 0x1753);
   (0x1760, 0x176c); (0x176e, 0x1770); (0x1772, 0x1773); (0x1780, 0x17dd);
   (0x17e0, 0x17e9); (0x17f0, 0x17f9); (0x1800, 0x180d); (0x180f, 0x1819);
   (0x1820, 0x1878); (0x1880, 0x18aa); (0x18b0, 0x18f5); (0x1900, 0x191e);
   (0x1920, 0x192b); (0x1930, 0x193b); (0x1940, 0x1940); (0x1944, 0x196d);
   (0x1970, 0x1974); (0x1980, 0x19ab); (0x19b0, 0x19c9); (0x19d0, 0x19da);
   (0x19de, 0x1a1b); (0x1a1e, 0x1a5e); (0x1a60, 0x1a7c); (0x1a7f, 0x1a89);
   (0x1a90, 0x1a99); (0x1aa0, 0x1aad); (0x1ab0, 0x1ace); (0x1b00, 0x1b4c);
   (0x1b50, 0x1b7e); (0x1b80, 0x1bf3); (0x1bfc, 0x1c37); (0x1c3b, 0x1c49);
   (0x1c4d, 0x1c88); (0x1c90, 0x1cba); (0x1cbd, 0x1cc7); (0x1cd0, 0x1cfa);
   (0x1d00, 0x1f15); (0x1f18, 0x1f1d); (0x1f20, 0x1f45); (0x1f48, 0x1f4d);
   (0x1f50, 0x1f57); (0x1f59, 0x1f59); (0x1f5b, 0x1f5b); (0x1f5d, 0x1f5d);
   (0x1f5f, 0x1f7d); (0x1f80, 0x1fb4); (0x1fb6, 0x1fc4); (0x1fc6, 0x1fd3);
   (0x1fd6, 0x1fdb); (0x1fdd, 0x1fef); (0x1ff2, 0x1ff4); (0x1ff6, 0x1ffe);
   (0x2010, 0x2027); (0x2030, 0x205e); (0x2070, 0x2071); (0x2074, 0x208e);
   (0x2090, 0x209c); (0x20a0, 0x20c0); (0x20d0, 0x20f0); (0x2100, 0x218b);
   (0x2190, 0x2426); (0x2440, 0x244a); (0x2460, 0x2b73); (0x2b76, 0x2b95);
   (0x2b97, 0x2cf3); (0x2cf9, 0x2d25); (0x2d27, 0x2d27); (0x2d2d, 0x2d2d);
   (0x2d30, 0x2d67); (0x2d6f, 0x2d70); (0x2d7f, 0x2d96); (0x2da0, 0x2da6);
   (0x2da8, 0x2dae); (0x2db0, 0x2db6); (0x2db8, 0x2dbe); (0x2dc0, 0x2dc6);
   (0x2dc8, 0x2dce); (0x2dd0, 0x2dd6); (0x2dd8, 0x2dde); (0x2de0, 0x2e5d);
   (0x2e80, 0x2e99); (0x2e9b, 0x2ef3); (0x2f00, 0x2fd5); (0x2ff0, 0x2ffb);
   (0x3001, 0x303f); (0x3041, 0x3096); (0x3099, 0x30ff); (0x3105, 0x312f);
   (0x3131, 0x318e); (0x3190, 0x31e3); (0x31f0, 0x321e); (0x3220, 0xa48c);
   (0xa490, 0xa4c6); (0xa4d0, 0xa62b); (0xa640, 0xa6f7); (0xa700, 0xa7ca);
   (0xa7d0, 0xa7d1); (0xa7d3, 0xa7d3); (0xa7d5, 0xa7d9); (0xa7f2, 0xa82c);
   (0xa830, 0xa839); (0xa840, 0xa877); (0xa880, 0xa8c5); (0xa8ce, 0xa8d9);
   (0xa8e0, 0xa953); (0xa95f, 0xa97c); (0xa980, 0xa9cd); (0xa9cf, 0xa9d9);
   (0xa9de, 0xa9fe); (0xaa00, 0xaa36); (0xaa40, 0xaa4d); (0xaa50, 0xaa59);
   (0xaa5c, 0xaac2); (0xaadb, 0xaaf6); (0xab01, 0xab06); (0xab09, 0xab0e);
   (0xab11, 0xab16); (0xab20, 0xab26); (0xab28, 0xab2e); (0xab30, 0xab6b);
   (0xab70, 0xabed); (0xabf0, 0xabf9); (0xac00, 0xd7a3); (0xd7b0, 0xd7c6);
   (0xd7cb, 0xd7fb); (0xf900, 0xfa6d); (0xfa70, 0xfad9); (0xfb00, 0xfb06);
   (0xfb13, 0xfb17); (0xfb1d, 0xfb36); (0xfb38, 0xfb3c); (0xfb3e, 0xfb3e);
   (0xfb40, 0xfb41); (0xfb43, 0xfb44); (0xfb46, 0xfbc2); (0xfbd3, 0xfd8f);
   (0xfd92, 0xfdc7); (0xfdcf, 0xfdcf); (0xfdf0, 0xfe19); (0xfe20, 0xfe52);
   (0xfe54, 0xfe66); (0xfe68, 0xfe6b); (0xfe70, 0xfe74); (0xfe76, 0xfefc);
   (0xff01, 0xffbe); (0xffc2, 0xffc7); (0xffca, 0xffcf); (0xffd2, 0xffd7);
   (0xffda, 0xffdc); (0xffe0, 0xffe6); (0xffe8, 0xffee); (0xfffc, 0xfffd);
   (0x10000, 0x1000b); (0x1000d, 0x10026); (0x10028, 0x1003a);
   (0x1003c, 0x1003d); (0x1003f, 0x1004d); (0x10050, 0x1005d);
   (0x10080, 0x100fa); (0x10100, 0x10102); (0x10107, 0x10133);
   (0x10137, 0x1018e); (0x10190, 0x1019c); (0x101a0, 0x101a0);
   (0x101d0, 0x101fd); (0x10280, 0x1029c); (0x102a0, 0x102d0);
   (0x102e0, 0x102fb); (0x10300, 0x10323); (0x1032d, 0x1034a);
   (0x10350, 0x1037a); (0x10380, 0x1039d); (0x1039f, 0x103c3);
   (0x103c8, 0x103d5); (0x10400, 0x1049d); (0x104a0, 0x104a9);
   (0x104b0, 0x104d3); (0x104d8, 0x104fb); (0x10500, 0x10527);
   (0x10530, 0x10563); (0x1056f, 0x1057a); (0x1057c, 0x1058a);
   (0x1058c, 0x10592); (0x10594, 0x10595); (0x10597, 0x105a1);
   (0x105a3, 0x105b1); (0x105b3, 0x105b9); (0x105bb, 0x105bc);
   (0x10600, 0x10736); (0x10740, 0x10755); (0x10760, 0x10767);
   (0x10780, 0x10785); (0x10787, 0x107b0); (0x107b2, 0x107ba);
   (0x10800, 0x10805); (0x10808, 0x10808); (0x1080a, 0x10835);
   (0x10837, 0x10838); (0x1083c, 0x1083c); (0x1083f, 0x10855);
   (0x10857, 0x1089e); (0x108a7, 0x108af); (0x108e0, 0x108f2);
   (0x108f4, 0x108f5); (0x108fb, 0x1091b); (0x1091f, 0x10939);
   (0x1093f, 0x1093f); (0x10980, 0x109b7); (0x109bc, 0x109cf);
   (0x109d2, 0x10a03); (0x10a05, 0x10a06); (0x10a0c, 0x10a13);
   (0x10a15, 0x10a17); (0x10a19, 0x10a35); (0x10a38, 0x10a3a);
   (0x10a3f, 0x10a48); (0x10a50, 0x10a58); (0x10a60, 0x10a9f);
   (0x10ac0, 0x10ae6); (0x10aeb, 0x10af6); (0x10b00, 0x10b35);
   (0x10b39, 0x10b55); (0x10b58, 0x10b72); (0x10b78, 0x10b91);
   (0x10b99, 0x10b9c); (0x10ba9, 0x10baf); (0x10c00, 0x10c48);
   (0x10c80, 0x10cb2); (0x10cc0, 0x10cf2); (0x10cfa, 0x10d27);
   (0x10d30, 0x10d39); (0x10e60, 0x10e7e); (0x10e80, 0x10ea9);
   (0x10eab, 0x10ead); (0x10eb0, 0x10eb1); (0x10f00, 0x10f27);
   (0x10f30, 0x10f59); (0x10f70, 0x10f89); (0x10fb0, 0x10fcb);
   (0x10fe0, 0x10ff6); (0x11000, 0x1104d); (0x11052, 0x11075);
   (0x1107f, 0x110bc); (0x110be, 0x110c2); (0x110d0, 0x110e8);
   (0x110f0, 0x110f9); (0x11100, 0x11134); (0x11136, 0x11147);
   (0x11150, 0x11176); (0x11180, 0x111df); (0x111e1, 0x111f4);
   (0x11200, 0x11211); (0x11213, 0x1123e); (0x11280, 0x11286);
   (0x11288, 0x11288); (0x1128a, 0x1128d); (0x1128f, 0x1129d);
   (0x1129f, 0x112a9); (0x112b0, 0x112ea); (0x112f0, 0x112f9);
   (0x11300, 0x11303); (0x11305, 0x1130c); (0x1130f, 0x11310);
   (0x11313, 0x11328); (0x1132a, 0x11330); (0x11332, 0x11333);
   (0x11335, 0x11339); (0x1133b, 0x11344); (0x11347, 0x11348);
   (0x1134b, 0x1134d); (0x11350, 0x11350); (0x11357, 0x11357);
   (0x1135d, 0x11363); (0x11366, 0x1136c); (0x11370, 0x11374);
   (0x11400, 0x1145b); (0x1145d, 0x11461); (0x11480, 0x114c7);
   (0x114d0, 0x114d9); (0x11580, 0x115b5); (0x115b8, 0x115dd);
   (0x11600, 0x11644); (0x11650, 0x11659); (0x11660, 0x1166c);
   (0x11680, 0x116b9); (0x116c0, 0x116c9); (0x11700, 0x1171a);
   (0x1171d, 0x1172b); (0x11730, 0x11746); (0x11800, 0x1183b);
   (0x118a0, 0x118f2); (0x118ff, 0x11906); (0x11909, 0x11909);
   (0x1190c, 0x11913); (0x11915, 0x11916); (0x11918, 0x11935);
   (0x11937, 0x11938); (0x1193b, 0x11946); (0x11950, 0x11959);
   (0x119a0, 0x119a7); (0x119aa, 0x119d7); (0x119da, 0x119e4);
   (0x11a00, 0x11a47); (0x11a50, 0x11aa2); (0x11ab0, 0x11af8);
   (0x11c00, 0x11c08); (0x11c0a, 0x11c36); (0x11c38, 0x11c45);
   (0x11c50, 0x11c6c); (0x11c70, 0x11c8f); (0x11c92, 0x11ca7);
   (0x11ca9, 0x11cb6); (0x11d00, 0x11d06); (0x11d08, 0x11d09);
   (0x11d0b, 0x11d36); (0x11d3a, 0x11d3a); (0x11d3c, 0x11d3d);
   (0x11d3f, 0x11d47); (0x11d50, 0x11d59); (0x11d60, 0x11d65);
   (0x11d67, 0x11d68); (0x11d6a, 0x11d8e); (0x11d90, 0x11d91);
   (0x11d93, 0x11d98); (0x11da0, 0x11da9); (0x11ee0, 0x11ef8);
   (0x11fb0, 0x11fb0); (0x11fc0, 0x11ff1); (0x11fff, 0x12399);
   (0x12400, 0x1246e); (0x12470, 0x12474); (0x12480, 0x12543);
   (0x12f90, 0x12ff2); (0x13000, 0x1342e); (0x14400, 0x14646);
   (0x16800, 0x16a38); (0x16a40, 0x16a5e); (0x16a60, 0x16a69);
   (0x16a6e, 0x16abe); (0x16ac0, 0x16ac9); (0x16ad0, 0x16aed);
   (0x16af0, 0x16af5); (0x16b00, 0x16b45); (0x16b50, 0x16b59);
   (0x16b5b, 0x16b61); (0x16b63, 0x16b77); (0x16b7d, 0x16b8f);
   (0x16e40, 0x16e9a); (0x16f00, 0x16f4a); (0x16f4f, 0x16f87);
   (0x16f8f, 0x16f9f); (0x16fe0, 0x16fe4); (0x16ff0, 0x16ff1);
   (0x17000, 0x187f7); (0x18800, 0x18cd5); (0x18d00, 0x18d08);
   (0x1aff0, 0x1aff3); (0x1aff5, 0x1affb); (0x1affd, 0x1affe);
   (0x1b000, 0x1b122); (0x1b150, 0x1b152); (0x1b164, 0x1b167);
   (0x1b170, 0x1b2fb); (0x1bc00, 0x1bc6a); (0x1bc70, 0x1bc7c);
   (0x1bc80, 0x1bc88); (0x1bc90, 0x1bc99); (0x1bc9c, 0x1bc9f);
   (0x1cf00, 0x1cf2d); (0x1cf30, 0x1cf46); (0x1cf50, 0x1cfc3);
   (0x1d000, 0x1d0f5); (0x1d100, 0x1d126); (0x1d129, 0x1d172);
   (0x1d17b, 0x1d1ea); (0x1d200, 0x1d245); (0x1d2e0, 0x1d2f3);
   (0x1d300, 0x1d356); (0x1d360, 0x1d378); (0x1d400, 0x1d454);
   (0x1d456, 0x1d49c); (0x1d49e, 0x1d49f); (0x1d4a2, 0x1d4a2);
   (0x1d4a5, 0x1d4a6); (0x1d4a9, 0x1d4ac); (0x1d4ae, 0x1d4b9);
   (0x1d4bb, 0x1d4bb); (0x1d4bd, 0x1d4c3); (0x1d4c5, 0x1d505);
   (0x1d507, 0x1d50a); (0x1d50d, 0x1d514); (0x1d516, 0x1d51c);
   (0x1d51e, 0x1d539); (0x1d53b, 0x1d53e); (0x1d540, 0x1d544);
   (0x1d546, 0x1d546); (0x1d54a, 0x1d550); (0x1d552, 0x1d6a5);
   (0x1d6a8, 0x1d7cb); (0x1d7ce, 0x1da8b); (0x1da9b, 0x1da9f);
   (0x1daa1, 0x1daaf); (0x1df00, 0x1df1e); (0x1e000, 0x1e006);
   (0x1e008, 0x1e018); (0x1e01b, 0x1e021); (0x1e023, 0x1e024);
   (0x1e026, 0x1e02a); (0x1e100, 0x1e12c); (0x1e130, 0x1e13d);
   (0x1e140, 0x1e149); (0x1e14e, 0x1e14f); (0x1e290, 0x1e2ae);
   (0x1e2c0, 0x1e2f9); (0x1e2ff, 0x1e2ff); (0x1e7e0, 0x1e7e6);
   (0x1e7e8, 0x1e7eb); (0x1e7ed, 0x1e7ee); (0x1e7f0, 0x1e7fe);
   (0x1e800, 0x1e8c4); (0x1e8c7, 0x1e8d6); (0x1e900, 0x1e94b);
   (0x1e950, 0x1e959); (0x1e95e, 0x1e95f); (0x1ec71, 0x1ecb4);
   (0x1ed01, 0x1ed3d); (0x1ee00, 0x1ee03); (0x1ee05, 0x1ee1f);
   (0x1ee21, 0x1ee22); (0x1ee24, 0x1ee24); (0x1ee27, 0x1ee27);
   (0x1ee29, 0x1ee32); (0x1ee34, 0x1ee37); (0x1ee39, 0x1ee39);
   (0x1ee3b, 0x1ee3b); (0x1ee42, 0x1ee42); (0x1ee47, 0x1ee47);
   (0x1ee49, 0x1ee49); (0x1ee4b, 0x1ee4b); (0x1ee4d, 0x1ee4f);
   (0x1ee51, 0x1ee52); (0x1ee54, 0x1ee54); (0x1ee57, 0x1ee57);
   (0x1ee59, 0x1ee59); (0x1ee5b, 0x1ee5b); (0x1ee5d, 0x1ee5d);
   (0x1ee5f, 0x1ee5f); (0x1ee61, 0x1ee62); (0x1ee64, 0x1ee64);
   (0x1ee67, 0x1ee6a); (0x1ee6c, 0x1ee72); (0x1ee74, 0x1ee77);
   (0x1ee79, 0x1ee7c); (0x1ee7e, 0x1ee7e); (0x1ee80, 0x1ee89);
   (0x1ee8b, 0x1ee9b); (0x1eea1, 0x1eea3); (0x1eea5, 0x1eea9);
   (0x1eeab, 0x1eebb); (0x1eef0, 0x1eef1); (0x1f000, 0x1f02b);
   (0x1f030, 0x1f093); (0x1f0a0, 0x1f0ae); (0x1f0b1, 0x1f0bf);
   (0x1f0c1, 0x1f0cf); (0x1f0d1, 0x1f0f5); (0x1f100, 0x1f1ad);
   (0x1f1e6, 0x1f202); (0x1f210, 0x1f23b); (0x1f240, 0x1f248);
   (0x1f250, 0x1f251); (0x1f260, 0x1f265); (0x1f300, 0x1f6d7);
   (0x1f6dd, 0x1f6ec); (0x1f6f0, 0x1f6fc); (0x1f700, 0x1f773);
   (0x1f780, 0x1f7d8); (0x1f7e0, 0x1f7eb); (0x1f7f0, 0x1f7f0);
   (0x1f800, 0x1f80b); (0x1f810, 0x1f847); (0x1f850, 0x1f859);
   (0x1f860, 0x1f887); (0x1f890, 0x1f8ad); (0x1f8b0, 0x1f8b1);
   (0x1f900, 0x1fa53); (0x1fa60, 0x1fa6d); (0x1fa70, 0x1fa74);
   (0x1fa78, 0x1fa7c); (0x1fa80, 0x1fa86); (0x1fa90, 0x1faac);
   (0x1fab0, 0x1faba); (0x1fac0, 0x1fac5); (0x1fad0, 0x1fad9);
   (0x1fae0, 0x1fae7); (0x1faf0, 0x1faf6); (0x1fb00, 0x1fb92);
   (0x1fb94, 0x1fbca); (0x1fbf0, 0x1fbf9); (0x20000, 0x2a6df);
   (0x2a700, 0x2b738); (0x2b740, 0x2b81d); (0x2b820, 0x2cea1);
   (0x2ceb0, 0x2ebe0); (0x2f800, 0x2fa1d); (0x30000, 0x3134a);
   (0xe0100, 0xe01ef)].

Definition isprintable (c : Z) : bool :=
  existsb (fun r => (fst r <=? c) && (c <=? snd r)) printable_ranges.

Definition continuation (b : ascii) : bool :=
  (0x80 <=? Text.code b) && (Text.code b <? 0xc0).

Definition low6 (b : ascii) : Z := Text.code b - 0x80.

(** The code points of a text, each with the bytes that spell it.  A byte
    that is not part of a well-formed sequence does not occur in the encoding
    of a [str]; it is read as [errors='surrogateescape'] reads it, as the
    lone surrogate [U+DC00 + byte]. *)
Fixpoint chars (s : string) : list (Z * string) :=
  match s with
  | "" => []
  | String b0 s0 =>
      let n0 := Text.code b0 in
      let lone := (0xdc00 + n0, Text.of_char b0) :: chars s0 in
      if n0 <? 0x80 then (n0, Text.of_char b0) :: chars s0
      else if n0 <? 0xc0 then lone
      else
        match s0 with
        | String b1 s1 =>
            if negb (continuation b1) then lone
            else if n0 <? 0xe0 then
              ((n0 - 0xc0) * 64 + low6 b1, String b0 (String b1 "")) :: chars s1
            else
              match s1 with
              | String b2 s2 =>
                  if negb (continuation b2) then lone
                  else if n0 <? 0xf0 then
                    (((n0 - 0xe0) * 64 + low6 b1) * 64 + low6 b2,
                     String b0 (String b1 (String b2 ""))) :: chars s2
                  else
                    match s2 with
                    | String b3 s3 =>
                        if negb (continuation b3) || (0xf8 <=? n0) then lone
                        else
                          ((((n0 - 0xf0) * 64 + low6 b1) * 64 + low6 b2) * 64
                           + low6 b3,
                           String b0 (String b1 (String b2 (String b3 ""))))
                          :: chars s3
                    | "" => lone
                    end
              | "" => lone
              end
        | "" => lone
        end
  end.

End Unicode.

(** ** repr and str of values *)

Module Repr.

Definition digits_text (ds : list Z) : string :=
  fold_right (fun d acc => String (Text.digit d) acc) "" ds.

(** The exponent of [%e]-style output: a sign and at least two digits. *)
Definition exponent (e : Z) : string :=
  (if e <? 0 then "-" else "+") +:+
  (if Z.abs e <? 10 then "0" else "") +:+ pretty (Z.abs e).

(** [float_repr]: format code ['r'] of [format_float_short], with
    [Py_DTSF_ADD_DOT_0]. *)
Definition float (x : pyfloat) : string :=
  match x with
  | FNan => "nan"
  | FInf neg => if neg then "-inf" else "inf"
  | FFinite neg ds decpt =>
      let n := Z.of_nat (length ds) in
      let body :=
        if (decpt <=? -4) || (16 <? decpt) then
          digits_text (firstn 1 ds) +:+
          (if 1 <? n then "." +:+ digits_text (skipn 1 ds) else "") +:+
          "e" +:+ exponent (decpt - 1)
        else if decpt <=? 0 then
          "0." +:+ Text.repeat "0" (Z.to_nat (- decpt)) +:+ digits_text ds
        else if n <=? decpt then
          digits_text ds +:+ Text.repeat "0" (Z.to_nat (decpt - n)) +:+ ".0"
        else
          digits_text (firstn (Z.to_nat decpt) ds) +:+ "." +:+
          digits_text (skipn (Z.to_nat decpt) ds)
      in (if neg then "-" else "") +:+ body
  end.

(** [n], without its sign, has more than [d] decimal digits. *)
Definition more_digits_than (d : Z) (n : Z) : bool := 10 ^ d <=? Z.abs n.

(** [long_to_decimal_string]: the decimal text of an int, refused when it
    has more digits than the interpreter's limit [max_digits]
    ([sys.get_int_max_str_digits()], 4300 unless changed; 0 lifts the
    limit). *)
Definition int (max_digits : Z) (n : Z) : exn + string :=
  if (0 <? max_digits) && more_digits_than max_digits n then
    inl (ValueError
           ("Exceeds the limit (" +:+ pretty max_digits +:+
            " digits) for integer string conversion; " +:+
            "use sys.set_int_max_str_digits() to increase the limit"))
  else inr (pretty n).

(** [unicode_repr], one code point: the quote and the backslash are escaped,
    tab, newline and carriage return are spelled, the other control
    characters and the code points that are not printable are written as
    [\xNN], [\uNNNN] or [\UNNNNNNNN]; everything else is copied. *)
Definition escape (quote : ascii) (c : Z) (bytes : string) : string :=
  if (c =? Text.code quote) || (c =? Text.code "\"%char) then String "\"%char bytes
  else if c =? 9 then "\t"
  else if c =? 10 then "\n"
  else if c =? 13 then "\r"
  else if (c <? 0x20) || (c =? 0x7f) then "\x" +:+ Text.hex 2 c
  else if c <? 0x7f then bytes
  else if Unicode.isprintable c then bytes
  else if c <=? 0xff then "\x" +:+ Text.hex 2 c
  else if c <=? 0xffff then "\u" +:+ Text.hex 4 c
  else "\U" +:+ Text.hex 8 c.

Fixpoint escape_all (quote : ascii) (cs : list (Z * string)) : string :=
  match cs with
  | [] => ""
  | (c, bytes) :: cs' => escape quote c bytes +:+ escape_all quote cs'
  end.

(** Single quotes unless the text has a single quote and no double quote. *)
Definition str_quote (s : string) : ascii :=
  if (0 <? Text.count "'"%char s)%nat && (Text.count "034"%char s =? 0)%nat
  then "034"%char else "'"%char.

(** [repr(s)] of a str *)
Definition str (s : string) : string :=
  let q := str_quote s in
  String q (escape_all q (Unicode.chars s)) +:+ Text.of_char q.

Definition too_deep (doing : string) : exn :=
  RecursionError ("maximum recursion depth exceeded while " +:+ doing).

(** [PyObject_Repr(v)] when the interpreter allows [fuel] more nested calls.
    The call itself takes one of them ([Py_EnterRecursiveCall]); a list or a
    dict then asks for the repr of its items in order, a dict for the repr
    of each key before that of its value, and the first exception ends the
    whole. *)
Fixpoint repr (max_digits : Z) (fuel : nat) (v : pyval) : exn + string :=
  match fuel with
  | O => inl (too_deep "getting the repr of an object")
  | S fuel' =>
      match v with
      | PyNone => inr "None"
      | PyInt n => int max_digits n
      | PyFloat x => inr (float x)
      | PyStr s => inr (str s)
      | PyList items =>
          and_then (for_each (repr max_digits fuel') items) (fun texts =>
          inr ("[" +:+ Text.join ", " texts +:+ "]"))
      | PyDict entries =>
          and_then
            (for_each
               (fun kv =>
                  and_then (repr max_digits fuel' (PyStr (fst kv))) (fun k =>
                  and_then (repr max_digits fuel' (snd kv)) (fun x =>
                  inr (k +:+ ": " +:+ x))))
               entries)
            (fun texts => inr ("{" +:+ Text.join ", " texts +:+ "}"))
      end
  end.

(** What an f-string field [{v}] inserts ([format(v, '')]) when the
    interpreter allows [fuel] more nested calls.  A str is inserted as it
    is.  An int goes through [PyObject_Str].  For the other values
    [object.__format__] (for a float, [float.__format__]) is called, which
    is one nested call, then [PyObject_Str], a second one, which runs the
    type's repr. *)
Definition format (max_digits : Z) (fuel : nat) (v : pyval) : exn + string :=
  match v with
  | PyStr s => inr s
  | PyInt n =>
      match fuel with
      | O => inl (too_deep "getting the str of an object")
      | S _ => int max_digits n
      end
  | _ =>
      match fuel with
      | O => inl (too_deep "calling a Python object")
      | S O => inl (too_deep "getting the str of an object")
      | S (S fuel') => repr max_digits (S fuel') v
      end
  end.

(** The nested calls [repr(v)] takes: one for a value that holds no other,
    one more than its deepest item for a list or a dict. *)
Fixpoint depth (v : pyval) : nat :=
  match v with
  | PyList items => S (fold_right (fun x acc => Nat.max (depth x) acc) O items)
  | PyDict entries =>
      S (fold_right (fun kv acc => Nat.max (depth (snd kv)) acc) O entries)
  | _ => 1%nat
  end.

(** The nested calls an f-string field takes. *)
Definition calls (v : pyval) : nat :=
  match v with
  | PyStr _ => O
  | PyInt _ => 1%nat
  | _ => S (depth v)
  end.

(** Every int inside [v] is within the limit on digits. *)
Fixpoint ints_within (max_digits : Z) (v : pyval) : bool :=
  match v with
  | PyInt n => negb ((0 <? max_digits) && more_digits_than max_digits n)
  | PyList items => forallb (ints_within max_digits) items
  | PyDict entries => forallb (fun kv => ints_within max_digits (snd kv)) entries
  | _ => true
  end.

End Repr.

(** The state of the interpreter that printing depends on: how many nested
    calls it still allows where the tool prints a value
    ([sys.getrecursionlimit()] less the frames in use), and the limit on the
    digits of an int ([sys.get_int_max_str_digits()]: 0, or at least 640). *)
Class Interpreter : Type := {
  recursion_remaining : nat;
  int_max_str_digits : Z
}.

(** An f-string field [{v}] *)
Definition py_format {Py : Interpreter} (v : pyval) : exn + string :=
  Repr.format int_max_str_digits recursion_remaining v.

(** The interpreter has the room and the digits to print [v]. *)
Definition printable {Py : Interpreter} (v : pyval) : Prop :=
  (Repr.calls v <= recursion_remaining)%nat /\
  Repr.ints_within int_max_str_digits v = true.

(** ** Truth values *)

(** The truth value of an object, as [or] and [if] test it. *)
Class Truthy (A : Type) := truthy : A -> bool.

(** [len(s) != 0] *)
#[export] Instance truthy_str : Truthy string :=
  fun s => match s with "" => false | String _ _ => true end.

#[export] Instance truthy_list {A} : Truthy (list A) :=
  fun l => match l with [] => false | _ :: _ => true end.

(** [x or y] where [x] is an [A | None] and [y] an [A]: [x] when it is
    neither [None] nor a falsy [A], else [y]. *)
Definition or_else {A} `{Truthy A} (x : option A) (y : A) : A :=
  match x with
  | Some a => if truthy a then a else y
  | None => y
  end.

(** ** uuid.UUID *)

Module UUID.

(** A UUID holds its 128-bit [int]. *)
Record t : Type := mk { int : Z }.

(** [int.from_bytes(bs)], big endian. *)
Definition int_from_bytes (bs : list Byte.byte) : Z :=
  fold_left (fun acc b => acc * 256 + Z.of_N (Byte.to_N b)) bs 0.

(** The variant and version bits, as [__init__] sets them. *)
Definition set_version (i version : Z) : Z :=
  let i := Z.land i (Z.lnot (Z.shiftl 0xc000 48)) in
  let i := Z.lor i (Z.shiftl 0x8000 48) in
  let i := Z.land i (Z.lnot (Z.shiftl 0xf000 64)) in
  Z.lor i (Z.shiftl version 76).

(** [UUID(bytes=bs, version=v)] *)
Definition init_bytes (bs : list Byte.byte) (version : Z) : exn + t :=
  if negb (length bs =? 16)%nat then
    inl (ValueError "bytes is not a 16-char string")
  else
    let i := int_from_bytes bs in
    if negb ((1 <=? version) && (version <=? 8)) then
      inl (ValueError "illegal version number")
    else
      inr (mk (set_version i version)).

(** [self.hex], that is ['%032x' % self.int] *)
Definition hex (u : t) : string := Text.hex 32 (int u).

(** [str(u)]: the hex digits in groups of 8, 4, 4, 4 and 12. *)
Definition str (u : t) : string :=
  let x := hex u in
  Text.slice 0 8 x +:+ "-" +:+ Text.slice 8 12 x +:+ "-" +:+
  Text.slice 12 16 x +:+ "-" +:+ Text.slice 16 20 x +:+ "-" +:+ Text.drop 20 x.

(** [u.version] and the two bits that mark the RFC 4122 variant. *)
Definition version (u : t) : Z := Z.land (Z.shiftr (int u) 76) 0xf.
Definition variant_bits (u : t) : Z := Z.land (Z.shiftr (int u) 62) 0x3.

Definition wf (u : t) : Prop := 0 <= int u < 2 ^ 128.

End UUID.

(** [UUID] defines neither [__bool__] nor [__len__]: every UUID is true. *)
#[export] Instance truthy_uuid : Truthy UUID.t := fun _ => true.

(** ** datetime.datetime *)

Module Datetime.

Record t : Type := mk {
  year : Z; month : Z; day : Z;
  hour : Z; minute : Z; second : Z; microsecond : Z
}.

Definition is_leap (y : Z) : bool :=
  (y mod 4 =? 0) && (negb (y mod 100 =? 0) || (y mod 400 =? 0)).

Definition days_in_month (y m : Z) : Z :=
  if m =? 2 then (if is_leap y then 29 else 28)
  else if (m =? 4) || (m =? 6) || (m =? 9) || (m =? 11) then 30 else 31.

(** The ranges the constructor enforces ([MINYEAR = 1], [MAXYEAR = 9999]). *)
Definition valid (d : t) : Prop :=
  1 <= year d <= 9999 /\ 1 <= month d <= 12 /\
  1 <= day d <= days_in_month (year d) (month d) /\
  0 <= hour d <= 23 /\ 0 <= minute d <= 59 /\ 0 <= second d <= 59 /\
  0 <= microsecond d <= 999999.

(** Lexicographic combination of comparisons. *)
Definition lex (c1 c2 : comparison) : comparison :=
  match c1 with Eq => c2 | _ => c1 end.

(** [_cmp]: comparison of the tuples (year, ..., microsecond). *)
Definition compare (a b : t) : comparison :=
  lex (year a ?= year b) (lex (month a ?= month b) (lex (day a ?= day b)
  (lex (hour a ?= hour b) (lex (minute a ?= minute b)
  (lex (second a ?= second b) (microsecond a ?= microsecond b)))))).

Definition lt (a b : t) : Prop := compare a b = Lt.

(** [_format_time] with [timespec='auto']. *)
Definition format_time (hh mm ss us : Z) : string :=
  Text.dec 2 hh +:+ ":" +:+ Text.dec 2 mm +:+ ":" +:+ Text.dec 2 ss +:+
  (if us =? 0 then "" else "." +:+ Text.dec 6 us).

(** [d.isoformat()] of a naive datetime:
    ["%04d-%02d-%02dT" % (year, month, day)] and the time. *)
Definition isoformat (d : t) : string :=
  Text.dec 4 (year d) +:+ "-" +:+ Text.dec 2 (month d) +:+ "-" +:+
  Text.dec 2 (day d) +:+ "T" +:+
  format_time (hour d) (minute d) (second d) (microsecond d).

End Datetime.

(** ** The store interface *)

(** A namespace is a tuple of texts; the tools use [("memories", user_id)]. *)
Abbreviation namespace := (list string).

(** What [store.asearch] yields.  The tools read [key] directly and probe
    [value] and [score] with [getattr]: [None] here means the object has no
    such attribute. *)
Record Item : Type := mkItem {
  key : string;
  value : option pyval;
  score : option pyval
}.

(** [getattr(r, name, default)] for the two probed attributes. *)
Definition getattr (attr : option pyval) (default : pyval) : pyval :=
  match attr with
  | Some v => v
  | None => default
  end.

(** The calls a tool sends to the store, with their arguments. *)
Inductive request : Type :=
| ReqPut (ns : namespace) (k : string) (v : pydict)
| ReqSearch (ns : namespace) (query : string) (limit : Z).

Definition request_namespace (r : request) : namespace :=
  match r with
  | ReqPut ns _ _ => ns
  | ReqSearch ns _ _ => ns
  end.

(** A [BaseStore] over states [S].  Either call may fail with an exception
    and may leave the store in a new state. *)
Class BaseStore (S : Type) : Type := {
  aput : namespace -> string -> pydict -> S -> S * option exn;
  asearch : namespace -> string -> Z -> S -> S * (exn + list Item)
}.

(** ** Tool programs *)

(** A tool is a program over the calls it makes to its environment.  There is
    no handler construct: the source has no [try]. *)
Inductive tool (A : Type) : Type :=
| Ret (a : A)
| Raise (e : exn)
| Urandom (n : nat) (k : list Byte.byte -> tool A)
| Now (k : Datetime.t -> tool A)
| APut (ns : namespace) (k : string) (v : pydict) (next : tool A)
| ASearch (ns : namespace) (query : string) (limit : Z) (k : list Item -> tool A).

Arguments Ret {A} a.
Arguments Raise {A} e.
Arguments Urandom {A} n k.
Arguments Now {A} k.
Arguments APut {A} ns k v next.
Arguments ASearch {A} ns query limit k.

Fixpoint bind {A B} (m : tool A) (f : A -> tool B) : tool B :=
  match m with
  | Ret a => f a
  | Raise e => Raise e
  | Urandom n k => Urandom n (fun bs => bind (k bs) f)
  | Now k => Now (fun d => bind (k d) f)
  | APut ns key v next => APut ns key v (bind next f)
  | ASearch ns q lim k => ASearch ns q lim (fun rs => bind (k rs) f)
  end.

#[export] Instance tool_ret : MRet tool := @Ret.
#[export] Instance tool_bind : MBind tool := fun A B f m => bind m f.

Definition os_urandom (n : nat) : tool (list Byte.byte) := Urandom n Ret.
Definition datetime_now : tool Datetime.t := Now Ret.
Definition store_aput (ns : namespace) (k : string) (v : pydict) : tool unit :=
  APut ns k v (Ret tt).
Definition store_asearch (ns : namespace) (query : string) (limit : Z)
  : tool (list Item) := ASearch ns query limit Ret.

Definition lift {A} (r : exn + A) : tool A :=
  match r with
  | inl e => Raise e
  | inr a => Ret a
  end.

(** [x or m] where the right operand is a call: it runs only when [x] is
    [None] or falsy. *)
Definition or_call {A} `{Truthy A} (x : option A) (m : tool A) : tool A :=
  match x with
  | Some a => if truthy a then Ret a else m
  | None => m
  end.

(** [uuid.uuid4()]: [UUID(bytes=os.urandom(16), version=4)] *)
Definition uuid4 : tool UUID.t :=
  bs ← os_urandom 16; lift (UUID.init_bytes bs 4).

(** ** The tools *)

Definition newline : string := String "010"%char "".

(** [int | None] as a Python value. *)
Definition py_optint (n : option Z) : pyval :=
  match n with
  | Some z => PyInt z
  | None => PyNone
  end.

Definition py_strlist (l : list string) : pyval := PyList (map PyStr l).

(** The dict literal of [upsert_memory], lines 41-47. *)
Definition memory_value (content context : string) (importance : option Z)
  (tags : option (list string)) (timestamp : string) : pydict :=
  [ ("content", PyStr content);
    ("context", PyStr context);
    ("importance", py_optint importance);
    ("tags", py_strlist (or_else tags []));
    ("timestamp", PyStr timestamp) ].

(** [upsert_memory], lines 36-49. *)
Definition upsert_memory (content context : string) (importance : option Z)
  (tags : option (list string)) (memory_id : option UUID.t) (user_id : string)
  : tool string :=
  mem_id ← or_call memory_id uuid4;
  now ← datetime_now;
  let timestamp := Datetime.isoformat now in
  store_aput ["memories"; user_id] (UUID.str mem_id)
    (memory_value content context importance tags timestamp);;
  mret ("Stored memory " +:+ UUID.str mem_id).

(** The f-string of line 71: the key, then the value and the score as an
    f-string field prints them, in this order; an exception of either ends
    the rendering. *)
Definition format_item {Py : Interpreter} (r : Item) : exn + string :=
  and_then (py_format (getattr (value r) (PyDict []))) (fun v =>
  and_then (py_format (getattr (score r) PyNone)) (fun s =>
  inr (key r +:+ ": " +:+ v +:+ " (score=" +:+ s +:+ ")"))).

(** [search_memories], lines 67-74.  The list comprehension renders the
    results in order and stops at the first exception. *)
Definition search_memories {Py : Interpreter} (query : option string) (limit : Z)
  (user_id : string) : tool string :=
  let q := or_else query "" in
  results ← store_asearch ["memories"; user_id] q limit;
  formatted ← lift (for_each format_item results);
  mret (if truthy formatted then Text.join newline formatted
       else "No memories found").

(** ** Running a tool *)

Inductive outcome (A : Type) : Type :=
| Returned (a : A)
| Raised (e : exn).

Arguments Returned {A} a.
Arguments Raised {A} e.

(** The world a tool runs in: the bytes [os.urandom] will hand out and how
    many were taken, the successive readings of [datetime.now()] and how many
    were made, the store, and the requests the store has received. *)
Record World (S : Type) : Type := mkWorld {
  entropy : nat -> Byte.byte;
  drawn : nat;
  clock : nat -> Datetime.t;
  ticks : nat;
  store : S;
  log : list request
}.

Arguments mkWorld {S}.
Arguments entropy {S}.
Arguments drawn {S}.
Arguments clock {S}.
Arguments ticks {S}.
Arguments store {S}.
Arguments log {S}.

Section Run.

Context {S : Type} `{BaseStore S}.

Definition next_bytes (w : World S) (n : nat) : list Byte.byte :=
  map (fun i => entropy w (drawn w + i)%nat) (seq 0 n).

Fixpoint run {A} (p : tool A) (w : World S) : World S * outcome A :=
  match p with
  | Ret a => (w, Returned a)
  | Raise e => (w, Raised e)
  | Urandom n k =>
      run (k (next_bytes w n))
          (mkWorld (entropy w) (drawn w + n) (clock w) (ticks w) (store w) (log w))
  | Now k =>
      run (k (clock w (ticks w)))
          (mkWorld (entropy w) (drawn w) (clock w) (Datatypes.S (ticks w)) (store w) (log w))
  | APut ns key v next =>
      let '(s', failure) := aput ns key v (store w) in
      let w' := mkWorld (entropy w) (drawn w) (clock w) (ticks w) s'
                  (log w ++ [ReqPut ns key v]) in
      match failure with
      | Some e => (w', Raised e)
      | None => run next w'
      end
  | ASearch ns q lim k =>
      let '(s', found) := asearch ns q lim (store w) in
      let w' := mkWorld (entropy w) (drawn w) (clock w) (ticks w) s'
                  (log w ++ [ReqSearch ns q lim]) in
      match found with
      | inl e => (w', Raised e)
      | inr rs => run (k rs) w'
      end
  end.

(** The identifier [uuid4()] builds from the next sixteen bytes. *)
Definition fresh_uuid (w : World S) : UUID.t :=
  UUID.mk (UUID.set_version (UUID.int_from_bytes (next_bytes w 16)) 4).

(** The identifier [memory_id or uuid.uuid4()] evaluates to. *)
Definition effective_id (memory_id : option UUID.t) (w : World S) : UUID.t :=
  match memory_id with
  | Some i => i
  | None => fresh_uuid w
  end.

(** How many entropy bytes that evaluation takes. *)
Definition id_bytes (memory_id : option UUID.t) : nat :=
  match memory_id with
  | Some _ => 0
  | None => 16
  end.

End Run.

(** ** A reference store *)

(** A store that keeps one value per (namespace, key), never fails, and
    searches by namespace prefix without ranking: the contract of
    [BaseStore.put] and [BaseStore.search] when no index is configured. *)
Module DictStore.

Abbreviation t := (gmap (namespace * string) pydict).

Definition put (ns : namespace) (k : string) (v : pydict) (m : t) : t :=
  <[(ns, k) := v]> m.

(** The entry lives in a namespace that starts with [p]. *)
Definition under (p : namespace) (e : namespace * string * pydict) : Prop :=
  take (length p) (fst (fst e)) = p.

#[global] Instance under_dec p e : Decision (under p e).
Proof. unfold under. apply _. Defined.

Definition to_item (e : namespace * string * pydict) : Item :=
  mkItem (snd (fst e)) (Some (PyDict (snd e))) (Some PyNone).

Definition search (p : namespace) (limit : Z) (m : t) : list Item :=
  take (Z.to_nat limit) (map to_item (map_to_list (filter (under p) m))).

#[global] Instance store : BaseStore t := {
  aput ns k v m := (put ns k v m, None);
  asearch ns q limit m := (m, inr (search ns limit m))
}.

End DictStore.

(** A store whose calls all fail, leaving its state (a count of the calls it
    has refused) changed. *)
Module BrokenStore.

Definition t : Type := nat.

Definition error : exn := Exn "ConnectionError" "store unreachable".

#[global] Instance store : BaseStore t := {
  aput ns k v n := (Datatypes.S n, Some error);
  asearch ns q limit n := (Datatypes.S n, inl error)
}.

End BrokenStore.

(** ** Sample worlds *)

Module Sample.

Definition bytes (n : nat) : Byte.byte :=
  match Byte.of_N (N.of_nat (n * 37 + 5) mod 256) with
  | Some b => b
  | None => Byte.x00
  end.

(** A clock that advances by one microsecond per reading. *)
Definition clock (n : nat) : Datetime.t :=
  Datetime.mk 2024 1 2 3 4 5 (Z.of_nat n).

Definition world {S} (s : S) : World S := mkWorld bytes 0 clock 0 s [].

Definition id : UUID.t := UUID.mk 255.

Definition empty : World DictStore.t := world ∅.

(** One memory of user [u1] under [id], one of user [u2]. *)
Definition records : DictStore.t :=
  <[(["memories"; "u1"], UUID.str id) :=
      memory_value "old" "ctx" (Some 3) (Some ["t"]) "2023-12-31T23:59:59"]>
  (<[(["memories"; "u2"], "k2") :=
      memory_value "other" "ctx" None None "2023-12-31T23:59:58"]> ∅).

Definition populated : World DictStore.t := world records.

Definition broken : World BrokenStore.t := world 0%nat.

(** The same with a second memory of user [u1]. *)
Definition records2 : DictStore.t :=
  <[(["memories"; "u1"], UUID.str (UUID.mk 256)) :=
      memory_value "new" "ctx2" None None "2024-01-01T00:00:00"]> records.

Definition populated2 : World DictStore.t := world records2.

(** An interpreter with the default limit on digits and room for 900 more
    nested calls. *)
Definition python : Interpreter :=
  {| recursion_remaining := 900; int_max_str_digits := 4300 |}.

End Sample.

(** * Properties *)

(** ** Running binds and the two tools *)

Section RunFacts.

Context {S : Type} `{BaseStore S} {Py : Interpreter}.

Lemma run_bind {A B} (m : tool A) (f : A -> tool B) (w : World S) :
  run (m ≫= f) w =
  match run m w with
  | (w', Returned a) => run (f a) w'
  | (w', Raised e) => (w', Raised e)
  end.
Proof.
  revert w. induction m as [a|e|n k IH|k IH|ns key v next IH|ns q lim k IH];
    intros w; cbn; try reflexivity.
  - apply IH.
  - apply IH.
  - destruct (aput ns key v (store w)) as [s' [e|]]; [reflexivity|apply IH].
  - destruct (asearch ns q lim (store w)) as [s' [e|rs]]; [reflexivity|apply IH].
Qed.

Lemma length_next_bytes (w : World S) n : length (next_bytes w n) = n.
Proof. unfold next_bytes. rewrite length_map. apply length_seq. Qed.

Lemma init_bytes_next (w : World S) :
  UUID.init_bytes (next_bytes w 16) 4 = inr (fresh_uuid w).
Proof.
  unfold UUID.init_bytes. rewrite length_next_bytes. reflexivity.
Qed.

Lemma run_uuid4 (w : World S) :
  run uuid4 w =
  (mkWorld (entropy w) (drawn w + 16) (clock w) (ticks w) (store w) (log w),
   Returned (fresh_uuid w)).
Proof.
  unfold uuid4. rewrite run_bind. cbn [os_urandom run].
  rewrite init_bytes_next. reflexivity.
Qed.

Lemma run_upsert_memory content context importance tags memory_id user_id (w : World S) :
  let id := effective_id memory_id w in
  let v := memory_value content context importance tags
             (Datetime.isoformat (clock w (ticks w))) in
  let n := (drawn w + id_bytes memory_id)%nat in
  let req := ReqPut ["memories"; user_id] (UUID.str id) v in
  run (upsert_memory content context importance tags memory_id user_id) w =
  match aput ["memories"; user_id] (UUID.str id) v (store w) with
  | (s', Some e) =>
      (mkWorld (entropy w) n (clock w) (Datatypes.S (ticks w)) s' (log w ++ [req]),
       Raised e)
  | (s', None) =>
      (mkWorld (entropy w) n (clock w) (Datatypes.S (ticks w)) s' (log w ++ [req]),
       Returned ("Stored memory " +:+ UUID.str id))
  end.
Proof.
  unfold upsert_memory. rewrite run_bind.
  destruct memory_id as [i|]; cbn [or_call truthy truthy_uuid].
  - cbn. rewrite Nat.add_0_r. destruct (aput _ _ _ _) as [s' [e|]]; reflexivity.
  - rewrite run_uuid4. cbn.
    destruct (aput _ _ _ _) as [s' [e|]]; reflexivity.
Qed.

Lemma run_search_memories query limit user_id (w : World S) :
  let req := ReqSearch ["memories"; user_id] (or_else query "") limit in
  run (search_memories query limit user_id) w =
  match asearch ["memories"; user_id] (or_else query "") limit (store w) with
  | (s', inl e) =>
      (mkWorld (entropy w) (drawn w) (clock w) (ticks w) s' (log w ++ [req]), Raised e)
  | (s', inr rs) =>
      (mkWorld (entropy w) (drawn w) (clock w) (ticks w) s' (log w ++ [req]),
       match for_each format_item rs with
       | inl e => Raised e
       | inr [] => Returned "No memories found"
       | inr (l :: ls) => Returned (Text.join newline (l :: ls))
       end)
  end.
Proof.
  unfold search_memories. cbn.
  destruct (asearch _ _ _ _) as [s' [e|rs]]; [reflexivity|].
  rewrite run_bind. destruct (for_each format_item rs) as [e|[|l ls]]; reflexivity.
Qed.

End RunFacts.

(** ** Identifiers *)

Module UUIDFacts.

Lemma int_from_bytes_acc (bs : list Byte.byte) (acc : Z) :
  0 <= acc ->
  0 <= fold_left (fun a b => a * 256 + Z.of_N (Byte.to_N b)) bs acc
    < (acc + 1) * 256 ^ Z.of_nat (length bs).
Proof.
  revert acc. induction bs as [|b bs IH]; intros acc Hacc.
  - cbn. lia.
  - cbn [fold_left length]. pose proof (Byte.to_N_bounded b) as Hb.
    specialize (IH (acc * 256 + Z.of_N (Byte.to_N b)) ltac:(lia)).
    rewrite Nat2Z.inj_succ, Z.pow_succ_r by lia.
    split; [lia|].
    eapply Z.lt_le_trans; [apply IH|].
    assert (0 < 256 ^ Z.of_nat (length bs)) by (apply Z.pow_pos_nonneg; lia).
    nia.
Qed.

Lemma int_from_bytes_range (bs : list Byte.byte) :
  length bs = 16%nat -> 0 <= UUID.int_from_bytes bs < 2 ^ 128.
Proof.
  intros Hlen. unfold UUID.int_from_bytes.
  pose proof (int_from_bytes_acc bs 0 ltac:(lia)) as Hr.
  rewrite Hlen in Hr. exact Hr.
Qed.

(** A non-negative integer is below [2^k] when its bits from [k] up are clear. *)
Lemma below_pow2_bits (x k : Z) :
  0 <= x -> 0 <= k ->
  (forall n, k <= n -> Z.testbit x n = false) -> x < 2 ^ k.
Proof.
  intros Hx Hk Hbits.
  destruct (Z.lt_ge_cases x (2 ^ k)) as [|Hge]; [assumption|exfalso].
  assert (0 < x) by (pose proof (Z.pow_pos_nonneg 2 k); lia).
  assert (k <= Z.log2 x) by (apply Z.log2_le_pow2; lia).
  pose proof (Z.bit_log2 x ltac:(lia)) as Hb.
  rewrite Hbits in Hb by lia. discriminate.
Qed.

Ltac closed_range :=
  first [ assumption | lia
        | split; [vm_compute; discriminate | vm_compute; reflexivity] ].

Lemma bits_above (x k n : Z) :
  0 <= x < 2 ^ k -> k <= n -> Z.testbit x n = false.
Proof.
  intros [Hx Hlt] Hn.
  destruct (Z.eq_dec x 0) as [->|]; [apply Z.bits_0|].
  apply Z.bits_above_log2; [lia|].
  assert (Z.log2 x < k); [|lia].
  apply Z.log2_lt_pow2; lia.
Qed.

Lemma set_version_range (i : Z) :
  0 <= i < 2 ^ 128 -> 0 <= UUID.set_version i 4 < 2 ^ 128.
Proof.
  intros Hi. unfold UUID.set_version.
  assert (Hnn : 0 <= Z.lor (Z.land (Z.lor (Z.land i (Z.lnot (Z.shiftl 49152 48)))
                   (Z.shiftl 32768 48)) (Z.lnot (Z.shiftl 61440 64))) (Z.shiftl 4 76)).
  { apply Z.lor_nonneg. split; [|vm_compute; discriminate].
    apply Z.land_nonneg. left. apply Z.lor_nonneg.
    split; [|vm_compute; discriminate].
    apply Z.land_nonneg. left. lia. }
  split; [exact Hnn|].
  apply below_pow2_bits; [exact Hnn|lia|].
  intros n Hn. rewrite !Z.lor_spec, !Z.land_spec, Z.lor_spec, Z.land_spec.
  rewrite (bits_above i 128 n Hi Hn).
  rewrite (bits_above (Z.shiftl 32768 48) 128 n) by closed_range.
  rewrite (bits_above (Z.shiftl 4 76) 128 n) by closed_range.
  reflexivity.
Qed.

Lemma set_version_bit (i n : Z) :
  0 <= n ->
  Z.testbit (UUID.set_version i 4) n =
  (Z.testbit i n && Z.testbit (Z.lnot (Z.shiftl 49152 48)) n
   || Z.testbit (Z.shiftl 32768 48) n) && Z.testbit (Z.lnot (Z.shiftl 61440 64)) n
  || Z.testbit (Z.shiftl 4 76) n.
Proof.
  intros _. unfold UUID.set_version.
  rewrite !Z.lor_spec, !Z.land_spec, Z.lor_spec, Z.land_spec. reflexivity.
Qed.

Lemma low_bits_cases (n k : Z) :
  0 <= n -> 0 < k <= 4 ->
  n = 0 \/ (1 < k /\ n = 1) \/ (2 < k /\ n = 2) \/ (3 < k /\ n = 3) \/ k <= n.
Proof. lia. Qed.

Lemma set_version_version (i : Z) :
  UUID.version (UUID.mk (UUID.set_version i 4)) = 4.
Proof.
  unfold UUID.version. cbn [UUID.int].
  apply Z.bits_inj'. intros n Hn.
  rewrite Z.land_spec, Z.shiftr_spec, set_version_bit by lia.
  destruct (low_bits_cases n 4 Hn ltac:(lia)) as [->|[[_ ->]|[[_ ->]|[[_ ->]|Hbig]]]];
    try (generalize (Z.testbit i (0 + 76)), (Z.testbit i (1 + 76)),
           (Z.testbit i (2 + 76)), (Z.testbit i (3 + 76));
         intros b0 b1 b2 b3; vm_compute; destruct b0, b1, b2, b3; reflexivity).
  rewrite (bits_above 15 4 n), (bits_above 4 4 n) by closed_range.
  apply andb_false_r.
Qed.

Lemma set_version_variant (i : Z) :
  UUID.variant_bits (UUID.mk (UUID.set_version i 4)) = 2.
Proof.
  unfold UUID.variant_bits. cbn [UUID.int].
  apply Z.bits_inj'. intros n Hn.
  rewrite Z.land_spec, Z.shiftr_spec, set_version_bit by lia.
  destruct (low_bits_cases n 2 Hn ltac:(lia)) as [->|[[_ ->]|[[Hk _]|[[Hk _]|Hbig]]]];
    try lia;
    try (generalize (Z.testbit i (0 + 62)), (Z.testbit i (1 + 62));
         intros b0 b1; vm_compute; destruct b0, b1; reflexivity).
  rewrite (bits_above 3 2 n), (bits_above 2 2 n) by closed_range.
  apply andb_false_r.
Qed.

End UUIDFacts.

(** ** Order of texts and of timestamps *)

Module TextFacts.

Lemma app_nil (b : string) : "" +:+ b = b.
Proof. reflexivity. Qed.

Lemma app_cons (c : ascii) (a b : string) : String c a +:+ b = String c (a +:+ b).
Proof. reflexivity. Qed.

Lemma app_assoc (a b c : string) : (a +:+ b) +:+ c = a +:+ (b +:+ c).
Proof.
  induction a as [|x a IH]; [reflexivity|].
  rewrite !app_cons, IH. reflexivity.
Qed.

Lemma length_app (a b : string) :
  String.length (a +:+ b) = (String.length a + String.length b)%nat.
Proof.
  induction a as [|x a IH]; [reflexivity|].
  rewrite app_cons. cbn [String.length]. rewrite IH. reflexivity.
Qed.

Lemma ascii_compare_refl (c : ascii) : Ascii.compare c c = Eq.
Proof. unfold Ascii.compare. apply N.compare_refl. Qed.

Lemma compare_refl (s : string) : String.compare s s = Eq.
Proof.
  induction s as [|c s IH]; [reflexivity|].
  cbn [String.compare]. rewrite ascii_compare_refl. exact IH.
Qed.

(** Texts of one length compare before anything appended to them. *)
Lemma compare_app (a a' b b' : string) :
  String.length a = String.length a' ->
  String.compare (a +:+ b) (a' +:+ b') =
  Datetime.lex (String.compare a a') (String.compare b b').
Proof.
  revert a'. induction a as [|c a IH]; intros [|c' a'] Hlen;
    try discriminate Hlen.
  - reflexivity.
  - rewrite !app_cons. cbn [String.compare].
    destruct (Ascii.compare c c'); try reflexivity.
    apply IH. cbn [String.length] in Hlen. congruence.
Qed.

Lemma compare_app_same (a b b' : string) :
  String.compare (a +:+ b) (a +:+ b') = String.compare b b'.
Proof.
  rewrite compare_app by reflexivity. rewrite compare_refl. reflexivity.
Qed.

Lemma length_fixed (b : Z) (w : nat) (n : Z) :
  String.length (Text.fixed b w n) = w.
Proof.
  revert n. induction w as [|w IH]; intros n; [reflexivity|].
  cbn [Text.fixed]. rewrite length_app, IH. cbn. lia.
Qed.

Lemma digit_cases (p : Z) :
  0 <= p < 16 ->
  p = 0 \/ p = 1 \/ p = 2 \/ p = 3 \/ p = 4 \/ p = 5 \/ p = 6 \/ p = 7 \/
  p = 8 \/ p = 9 \/ p = 10 \/ p = 11 \/ p = 12 \/ p = 13 \/ p = 14 \/ p = 15.
Proof. lia. Qed.

Lemma compare_digit (p q : Z) :
  0 <= p < 16 -> 0 <= q < 16 ->
  Ascii.compare (Text.digit p) (Text.digit q) = (p ?= q).
Proof.
  intros Hp Hq.
  destruct (digit_cases p Hp) as [->|[->|[->|[->|[->|[->|[->|[->|[->|[->|[->|[->|[->|[->|[->| ->]]]]]]]]]]]]]]];
    destruct (digit_cases q Hq) as [->|[->|[->|[->|[->|[->|[->|[->|[->|[->|[->|[->|[->|[->|[->| ->]]]]]]]]]]]]]]];
    reflexivity.
Qed.

(** Comparing quotient then remainder is comparing the numbers. *)
Lemma compare_divmod (b x y : Z) :
  0 < b ->
  Datetime.lex (x / b ?= y / b) (x mod b ?= y mod b) = (x ?= y).
Proof.
  intros Hb.
  pose proof (Z.div_mod x b ltac:(lia)) as Hx.
  pose proof (Z.div_mod y b ltac:(lia)) as Hy.
  pose proof (Z.mod_pos_bound x b Hb) as Hxm.
  pose proof (Z.mod_pos_bound y b Hb) as Hym.
  destruct (Z.compare_spec (x / b) (y / b)) as [Hq|Hq|Hq]; cbn [Datetime.lex].
  - destruct (Z.compare_spec (x mod b) (y mod b)) as [Hr|Hr|Hr]; symmetry.
    + apply Z.compare_eq_iff. congruence.
    + apply Z.compare_lt_iff. nia.
    + apply Z.compare_gt_iff. nia.
  - symmetry. apply Z.compare_lt_iff. nia.
  - symmetry. apply Z.compare_gt_iff. nia.
Qed.

Lemma compare_fixed (b : Z) (w : nat) (x y : Z) :
  2 <= b <= 16 ->
  0 <= x < b ^ Z.of_nat w -> 0 <= y < b ^ Z.of_nat w ->
  String.compare (Text.fixed b w x) (Text.fixed b w y) = (x ?= y).
Proof.
  intros Hb. revert x y. induction w as [|w IH]; intros x y Hx Hy.
  - cbn in Hx, Hy. assert (x = 0) as -> by lia. assert (y = 0) as -> by lia.
    reflexivity.
  - rewrite Nat2Z.inj_succ, Z.pow_succ_r in Hx, Hy by lia.
    cbn [Text.fixed]. rewrite compare_app by (rewrite !length_fixed; reflexivity).
    rewrite IH.
    + unfold Text.of_char. cbn [String.compare].
      rewrite compare_digit.
      * replace (match x mod b ?= y mod b with Eq => Eq | Lt => Lt | Gt => Gt end)
          with (x mod b ?= y mod b) by (destruct (x mod b ?= y mod b); reflexivity).
        apply compare_divmod. lia.
      * pose proof (Z.mod_pos_bound x b ltac:(lia)). lia.
      * pose proof (Z.mod_pos_bound y b ltac:(lia)). lia.
    + split; [apply Z.div_pos; lia|apply Z.div_lt_upper_bound; lia].
    + split; [apply Z.div_pos; lia|apply Z.div_lt_upper_bound; lia].
Qed.

Lemma compare_dec (w : nat) (x y : Z) :
  0 <= x < 10 ^ Z.of_nat w -> 0 <= y < 10 ^ Z.of_nat w ->
  String.compare (Text.dec w x) (Text.dec w y) = (x ?= y).
Proof. apply compare_fixed. lia. Qed.

End TextFacts.

Module DatetimeFacts.

Import TextFacts.

Lemma days_in_month_le (y m : Z) : Datetime.days_in_month y m <= 31.
Proof.
  unfold Datetime.days_in_month.
  repeat match goal with |- context [if ?c then _ else _] => destruct c end; lia.
Qed.

(** The optional fraction orders like the microseconds. *)
Lemma compare_fraction (u v : Z) :
  0 <= u <= 999999 -> 0 <= v <= 999999 ->
  String.compare (if u =? 0 then "" else "." +:+ Text.dec 6 u)
                 (if v =? 0 then "" else "." +:+ Text.dec 6 v) = (u ?= v).
Proof.
  intros Hu Hv.
  destruct (Z.eqb_spec u 0) as [->|Hu0]; destruct (Z.eqb_spec v 0) as [->|Hv0].
  - reflexivity.
  - replace (0 ?= v) with Lt by (symmetry; apply Z.compare_lt_iff; lia).
    reflexivity.
  - replace (u ?= 0) with Gt by (symmetry; apply Z.compare_gt_iff; lia).
    reflexivity.
  - rewrite compare_app_same. apply compare_dec; cbn; lia.
Qed.

(** Timestamps order, as texts, like the instants they render. *)
Lemma compare_isoformat (a b : Datetime.t) :
  Datetime.valid a -> Datetime.valid b ->
  String.compare (Datetime.isoformat a) (Datetime.isoformat b) = Datetime.compare a b.
Proof.
  intros (Hy & Hm & Hd & Hh & Hmi & Hs & Hu) (Hy' & Hm' & Hd' & Hh' & Hmi' & Hs' & Hu').
  pose proof (days_in_month_le (Datetime.year a) (Datetime.month a)).
  pose proof (days_in_month_le (Datetime.year b) (Datetime.month b)).
  unfold Datetime.isoformat, Datetime.format_time, Datetime.compare.
  repeat (rewrite compare_app by (rewrite ?length_fixed; reflexivity);
          first [ rewrite compare_dec by (cbn; lia)
                | rewrite compare_refl; cbn [Datetime.lex] ]).
  rewrite compare_fraction by assumption.
  reflexivity.
Qed.

Lemma isoformat_lt (a b : Datetime.t) :
  Datetime.valid a -> Datetime.valid b -> Datetime.lt a b ->
  Datetime.isoformat a <> Datetime.isoformat b /\
  (Datetime.isoformat a ≤ Datetime.isoformat b)%string.
Proof.
  intros Ha Hb Hlt. pose proof (compare_isoformat a b Ha Hb) as Hc.
  unfold Datetime.lt in Hlt. rewrite Hlt in Hc. split.
  - intros Heq. rewrite Heq, compare_refl in Hc. discriminate.
  - unfold String.le, String.leb. rewrite Hc. exact I.
Qed.

End DatetimeFacts.

(** ** The reference store *)

Module DictStoreFacts.

Lemma lookup_put (m : DictStore.t) ns k v :
  DictStore.put ns k v m !! (ns, k) = Some v.
Proof. unfold DictStore.put. apply lookup_insert_eq. Qed.

Lemma lookup_put_ne (m : DictStore.t) ns k v (j : namespace * string) :
  j <> (ns, k) -> DictStore.put ns k v m !! j = m !! j.
Proof. intros Hne. unfold DictStore.put. apply lookup_insert_ne. congruence. Qed.

(** Writing at a key that holds a record keeps the number of records. *)
Lemma size_put_existing (m : DictStore.t) ns k v :
  is_Some (m !! (ns, k)) -> size (DictStore.put ns k v m) = size m.
Proof.
  intros Hold. unfold DictStore.put. apply map_size_insert_Some, Hold.
Qed.

(** Writing at an unused key adds one record. *)
Lemma size_put_fresh (m : DictStore.t) ns k v :
  m !! (ns, k) = None -> size (DictStore.put ns k v m) = Datatypes.S (size m).
Proof. intros Hnone. unfold DictStore.put. apply map_size_insert_None, Hnone. Qed.

(** The search sees only the entries under its namespace prefix. *)
Lemma search_agree (p : namespace) (limit : Z) (m1 m2 : DictStore.t) :
  (forall ns k, take (length p) ns = p -> m1 !! (ns, k) = m2 !! (ns, k)) ->
  DictStore.search p limit m1 = DictStore.search p limit m2.
Proof.
  intros Hagree. unfold DictStore.search. do 3 f_equal.
  apply map_filter_strong_ext. intros [ns k] v.
  unfold DictStore.under. cbn [fst].
  split; intros [Hp Hv]; (split; [exact Hp|]);
    [rewrite <- (Hagree ns k Hp)|rewrite (Hagree ns k Hp)]; exact Hv.
Qed.

End DictStoreFacts.

(** ** upsert_memory: identifier, key and confirmation *)

Section Identifier.

Context {S : Type} `{BaseStore S}.

Lemma fresh_uuid_wf (w : World S) : UUID.wf (fresh_uuid w).
Proof.
  unfold UUID.wf, fresh_uuid. cbn [UUID.int].
  apply UUIDFacts.set_version_range, UUIDFacts.int_from_bytes_range.
  apply length_next_bytes.
Qed.

Lemma fresh_uuid_version (w : World S) : UUID.version (fresh_uuid w) = 4.
Proof. exact (UUIDFacts.set_version_version _). Qed.

Lemma fresh_uuid_variant (w : World S) : UUID.variant_bits (fresh_uuid w) = 2.
Proof. exact (UUIDFacts.set_version_variant _). Qed.

Lemma upsert_memory_log content context importance tags memory_id user_id (w : World S) :
  log (fst (run (upsert_memory content context importance tags memory_id user_id) w)) =
  (log w ++ [ReqPut ["memories"; user_id] (UUID.str (effective_id memory_id w))
               (memory_value content context importance tags
                  (Datetime.isoformat (clock w (ticks w))))])%list.
Proof.
  rewrite run_upsert_memory. cbv zeta.
  destruct (aput _ _ _ _) as [s' [e|]]; reflexivity.
Qed.

Lemma upsert_memory_store content context importance tags memory_id user_id (w : World S) :
  store (fst (run (upsert_memory content context importance tags memory_id user_id) w)) =
  fst (aput ["memories"; user_id] (UUID.str (effective_id memory_id w))
         (memory_value content context importance tags
            (Datetime.isoformat (clock w (ticks w)))) (store w)).
Proof.
  rewrite run_upsert_memory. cbv zeta.
  destruct (aput _ _ _ _) as [s' [e|]]; reflexivity.
Qed.

Lemma upsert_memory_outcome content context importance tags memory_id user_id (w : World S) :
  snd (run (upsert_memory content context importance tags memory_id user_id) w) =
  match snd (aput ["memories"; user_id] (UUID.str (effective_id memory_id w))
               (memory_value content context importance tags
                  (Datetime.isoformat (clock w (ticks w)))) (store w)) with
  | Some e => Raised e
  | None => Returned ("Stored memory " +:+ UUID.str (effective_id memory_id w))
  end.
Proof.
  rewrite run_upsert_memory. cbv zeta.
  destruct (aput _ _ _ _) as [s' [e|]]; reflexivity.
Qed.

Lemma upsert_memory_counters content context importance tags memory_id user_id (w : World S) :
  let w' := fst (run (upsert_memory content context importance tags memory_id user_id) w) in
  drawn w' = (drawn w + id_bytes memory_id)%nat /\
  ticks w' = Datatypes.S (ticks w) /\
  entropy w' = entropy w /\ clock w' = clock w.
Proof.
  rewrite run_upsert_memory. cbv zeta.
  destruct (aput _ _ _ _) as [s' [e|]]; cbn; auto.
Qed.

End Identifier.

(** C1.  The identifier [upsert_memory] works with decides the key of the
    write and the confirmation.  With a [memory_id] the one write goes to
    [("memories", user_id)] under [str(memory_id)], no entropy is taken, and
    on a store that already holds a record there the number of records stays
    the same while that record becomes exactly the new value and every other
    record is kept.  Without a [memory_id] the identifier is built from
    sixteen bytes newly taken from the entropy source: a 128-bit version 4
    UUID of the RFC 4122 variant.  Whenever the write succeeds the tool
    returns "Stored memory " followed by that identifier. *)
Theorem upsert_memory_effective_identifier
  content context importance tags user_id :
  (forall (S : Type) (St : BaseStore S) (w : World S) (memory_id : option UUID.t),
     let id := effective_id memory_id w in
     let v := memory_value content context importance tags
                (Datetime.isoformat (clock w (ticks w))) in
     let r := run (upsert_memory content context importance tags memory_id user_id) w in
     log (fst r) = (log w ++ [ReqPut ["memories"; user_id] (UUID.str id) v])%list /\
     (snd (aput ["memories"; user_id] (UUID.str id) v (store w)) = None ->
      snd r = Returned ("Stored memory " +:+ UUID.str id)) /\
     (forall text, snd r = Returned text -> text = "Stored memory " +:+ UUID.str id) /\
     (forall i, memory_id = Some i -> id = i /\ drawn (fst r) = drawn w) /\
     (memory_id = None ->
      id = UUID.mk (UUID.set_version (UUID.int_from_bytes (next_bytes w 16)) 4) /\
      UUID.wf id /\ UUID.version id = 4 /\ UUID.variant_bits id = 2 /\
      drawn (fst r) = (drawn w + 16)%nat)) /\
  (forall (w : World DictStore.t) (i : UUID.t),
     let slot := (["memories"; user_id], UUID.str i) in
     let r := run (upsert_memory content context importance tags (Some i) user_id) w in
     is_Some (store w !! slot) ->
     size (store (fst r)) = size (store w) /\
     store (fst r) !! slot =
       Some (memory_value content context importance tags
               (Datetime.isoformat (clock w (ticks w)))) /\
     (forall other, other <> slot -> store (fst r) !! other = store w !! other) /\
     snd r = Returned ("Stored memory " +:+ UUID.str i)).
Proof.
  split.
  - intros S St w memory_id id v r. subst r v.
    pose proof (upsert_memory_counters content context importance tags memory_id user_id w) as (Hdrawn & _).
    rewrite upsert_memory_log, upsert_memory_outcome, Hdrawn. fold id.
    split; [reflexivity|].
    split; [intros ->; reflexivity|].
    split.
    { intros text Ht. destruct (snd (aput _ _ _ _)); [discriminate|congruence]. }
    split.
    { intros i ->. split; [reflexivity|]. cbn [id_bytes]. lia. }
    intros ->. subst id. cbn [effective_id id_bytes].
    split; [reflexivity|]. split; [exact (fresh_uuid_wf w)|].
    split; [exact (fresh_uuid_version w)|]. split; [exact (fresh_uuid_variant w)|].
    reflexivity.
  - intros w i slot r Hheld. subst r.
    rewrite upsert_memory_store, upsert_memory_outcome. cbn [effective_id aput DictStore.store fst snd].
    split; [apply DictStoreFacts.size_put_existing, Hheld|].
    split; [apply DictStoreFacts.lookup_put|].
    split; [|reflexivity].
    intros other Hne. apply DictStoreFacts.lookup_put_ne, Hne.
Qed.

Lemma upsert_memory_effective_identifier_witness :
  size (store (fst (run (upsert_memory "new" "ctx" None None (Some Sample.id) "u1")
                      Sample.populated))) = 2%nat /\
  snd (run (upsert_memory "new" "ctx" None None None "u1") Sample.empty) =
  Returned "Stored memory 052a4f74-99be-4308-ad52-779cc1e60b30".
Proof.
  destruct (upsert_memory_effective_identifier "new" "ctx" None None "u1")
    as [Hgen Hdict].
  split.
  - pose proof (Hdict Sample.populated Sample.id) as Hheld. cbv zeta in Hheld.
    destruct Hheld as (Hsize & _).
    + vm_compute. eexists. reflexivity.
    + rewrite Hsize. vm_compute. reflexivity.
  - pose proof (Hgen _ _ Sample.empty None) as Hnew. cbv zeta in Hnew.
    destruct Hnew as (_ & Hok & _).
    rewrite Hok by reflexivity. vm_compute. reflexivity.
Defined.

(** ** upsert_memory: the stored value *)

Lemma or_else_nil {A} (x : option (list A)) :
  or_else x [] = match x with Some l => l | None => [] end.
Proof. destruct x as [[|a l]|]; reflexivity. Qed.

(** C2, as the code has it.  The value of the one write is the mapping with
    the five keys content, context, importance, tags and timestamp, in that
    order.  Content and context are the arguments unchanged, tags is the
    list given or the empty list, timestamp is the rendering of the clock
    reading.  The importance key is always present: it holds the integer
    given, and [None] when no importance was given, which is not the
    integer zero. *)
Theorem upsert_memory_stored_value
  (S : Type) (St : BaseStore S) (w : World S)
  content context importance tags memory_id user_id :
  exists v,
    log (fst (run (upsert_memory content context importance tags memory_id user_id) w)) =
    (log w ++ [ReqPut ["memories"; user_id] (UUID.str (effective_id memory_id w)) v])%list /\
    dict_keys v = ["content"; "context"; "importance"; "tags"; "timestamp"] /\
    dict_get "content" v = Some (PyStr content) /\
    dict_get "context" v = Some (PyStr context) /\
    dict_has "importance" v = true /\
    match importance with
    | Some n => dict_get "importance" v = Some (PyInt n)
    | None => dict_get "importance" v = Some PyNone /\
              dict_get "importance" v <> Some (PyInt 0)
    end /\
    dict_get "tags" v =
      Some (PyList (map PyStr (match tags with Some l => l | None => [] end))) /\
    dict_get "timestamp" v = Some (PyStr (Datetime.isoformat (clock w (ticks w)))).
Proof.
  eexists. split; [apply upsert_memory_log|].
  split; [reflexivity|]. split; [reflexivity|]. split; [reflexivity|].
  split; [reflexivity|]. split.
  - destruct importance as [n|]; [reflexivity|].
    split; [reflexivity|discriminate].
  - split; [|reflexivity].
    cbn [memory_value dict_get String.eqb Ascii.eqb Bool.eqb]. unfold py_strlist.
    rewrite or_else_nil. reflexivity.
Qed.

(** The claim C2 as stated fails: with no importance given, the value stored
    still has the importance key, holding [None]. *)
Lemma upsert_memory_importance_key_present :
  exists v,
    store (fst (run (upsert_memory "likes tea" "said so" None None (Some Sample.id) "u1")
                  Sample.empty))
      !! (["memories"; "u1"], UUID.str Sample.id) = Some v /\
    dict_keys v = ["content"; "context"; "importance"; "tags"; "timestamp"] /\
    dict_get "importance" v = Some PyNone /\
    dict_has "importance" v <> false.
Proof.
  eexists. split; [vm_compute; reflexivity|].
  split; [reflexivity|]. split; [reflexivity|]. discriminate.
Qed.

(** C3.  The tags field of the stored value is always a list, never [None]
    and never missing: the list given, in its order, or the empty list when
    tags is [None].  So [tags=None] stores the empty list and
    [tags=["a","b"]] stores exactly the list of "a" then "b". *)
Theorem upsert_memory_tags_normalized
  (S : Type) (St : BaseStore S) (w : World S)
  content context importance memory_id user_id :
  (forall tags, exists v items,
     log (fst (run (upsert_memory content context importance tags memory_id user_id) w)) =
     (log w ++ [ReqPut ["memories"; user_id] (UUID.str (effective_id memory_id w)) v])%list /\
     dict_get "tags" v = Some (PyList (map PyStr items)) /\
     items = match tags with Some l => l | None => [] end) /\
  (exists v,
     log (fst (run (upsert_memory content context importance None memory_id user_id) w)) =
     (log w ++ [ReqPut ["memories"; user_id] (UUID.str (effective_id memory_id w)) v])%list /\
     dict_get "tags" v = Some (PyList [])) /\
  (exists v,
     log (fst (run (upsert_memory content context importance (Some ["a"; "b"]) memory_id
                      user_id) w)) =
     (log w ++ [ReqPut ["memories"; user_id] (UUID.str (effective_id memory_id w)) v])%list /\
     dict_get "tags" v = Some (PyList [PyStr "a"; PyStr "b"])).
Proof.
  split; [|split].
  - intros tags. eexists. exists (match tags with Some l => l | None => [] end).
    split; [apply upsert_memory_log|]. split; [|reflexivity].
    cbn [memory_value dict_get String.eqb Ascii.eqb Bool.eqb]. unfold py_strlist.
    rewrite or_else_nil. reflexivity.
  - eexists. split; [apply upsert_memory_log|]. reflexivity.
  - eexists. split; [apply upsert_memory_log|]. reflexivity.
Qed.

(** C10.  An empty tag list and no tag list give the same tool program, so
    on every store and world the same write, the same returned text and the
    same world afterwards. *)
Theorem upsert_memory_empty_tags_as_none
  content context importance memory_id user_id :
  upsert_memory content context importance (Some []) memory_id user_id =
  upsert_memory content context importance None memory_id user_id /\
  (forall (S : Type) (St : BaseStore S) (w : World S),
     run (upsert_memory content context importance (Some []) memory_id user_id) w =
     run (upsert_memory content context importance None memory_id user_id) w) /\
  (forall timestamp,
     memory_value content context importance (Some []) timestamp =
     memory_value content context importance None timestamp).
Proof.
  split; [reflexivity|]. split; [intros; reflexivity|intros; reflexivity].
Qed.

(** ** search_memories *)

Section Search.

Context {S : Type} `{BaseStore S} {Py : Interpreter}.

Lemma search_memories_log query limit user_id (w : World S) :
  log (fst (run (search_memories query limit user_id) w)) =
  (log w ++ [ReqSearch ["memories"; user_id] (or_else query "") limit])%list.
Proof.
  rewrite run_search_memories. cbv zeta.
  destruct (asearch _ _ _ _) as [s' [e|rs]]; reflexivity.
Qed.

Lemma search_memories_store query limit user_id (w : World S) :
  store (fst (run (search_memories query limit user_id) w)) =
  fst (asearch ["memories"; user_id] (or_else query "") limit (store w)).
Proof.
  rewrite run_search_memories. cbv zeta.
  destruct (asearch _ _ _ _) as [s' [e|rs]]; reflexivity.
Qed.

Lemma search_memories_outcome query limit user_id (w : World S) :
  snd (run (search_memories query limit user_id) w) =
  match snd (asearch ["memories"; user_id] (or_else query "") limit (store w)) with
  | inl e => Raised e
  | inr rs =>
      match for_each format_item rs with
      | inl e => Raised e
      | inr [] => Returned "No memories found"
      | inr (l :: ls) => Returned (Text.join newline (l :: ls))
      end
  end.
Proof.
  rewrite run_search_memories. cbv zeta.
  destruct (asearch _ _ _ _) as [s' [e|rs]]; reflexivity.
Qed.

End Search.

(** C4.  A search with no query and a search with the empty query are the
    same tool program: each sends the store the one request
    [search(("memories", user_id), query="", limit=limit)], and on every
    store and world they end in the same world with the same result. *)
Theorem search_memories_none_as_empty (Py : Interpreter) (limit : Z) (user_id : string) :
  search_memories None limit user_id = search_memories (Some "") limit user_id /\
  (forall (S : Type) (St : BaseStore S) (w : World S),
     log (fst (run (search_memories None limit user_id) w)) =
       (log w ++ [ReqSearch ["memories"; user_id] "" limit])%list /\
     log (fst (run (search_memories (Some "") limit user_id) w)) =
       (log w ++ [ReqSearch ["memories"; user_id] "" limit])%list /\
     run (search_memories None limit user_id) w =
     run (search_memories (Some "") limit user_id) w).
Proof.
  split; [reflexivity|]. intros S St w.
  split; [apply search_memories_log|]. split; [apply search_memories_log|reflexivity].
Qed.

(** C5.  When the store's search yields no result, whatever the query and
    the limit, the tool returns the text "No memories found", which is not
    the empty text. *)
Theorem search_memories_no_results
  (S : Type) (St : BaseStore S) (Py : Interpreter) (w : World S)
  query limit user_id (s' : S) :
  asearch ["memories"; user_id] (or_else query "") limit (store w) = (s', inr []) ->
  snd (run (search_memories query limit user_id) w) = Returned "No memories found" /\
  snd (run (search_memories query limit user_id) w) <> Returned "".
Proof.
  intros Hnone. rewrite search_memories_outcome, Hnone. cbn [snd].
  split; [reflexivity|discriminate].
Qed.

Lemma search_memories_no_results_witness :
  snd (run (search_memories (Py := Sample.python) (Some "tea") 10 "u1") Sample.empty) =
    Returned "No memories found" /\
  snd (run (search_memories (Py := Sample.python) (Some "tea") 10 "u1") Sample.empty)
    <> Returned "".
Proof.
  apply (search_memories_no_results _ _ Sample.python Sample.empty (Some "tea") 10 "u1" ∅).
  vm_compute. reflexivity.
Defined.

(** *** Rendering of the results *)

Section Rendering.

Context {Py : Interpreter}.

Lemma for_each_inr {A B} (f : A -> exn + B) (l : list A) (ys : list B) :
  for_each f l = inr ys <-> Forall2 (fun x y => f x = inr y) l ys.
Proof.
  revert ys. induction l as [|a l IH]; intros ys; cbn [for_each].
  - split; [intros [= <-]; constructor|intros Hall; inversion Hall; reflexivity].
  - unfold and_then. split.
    + destruct (f a) as [e|b] eqn:Hb; [discriminate|].
      destruct (for_each f l) as [e|bs] eqn:Hbs; [discriminate|].
      intros [= <-]. constructor; [exact Hb|]. apply IH. reflexivity.
    + intros Hall. inversion Hall as [|x y l' ys' Hxy Hrest]; subst.
      rewrite Hxy. apply IH in Hrest. rewrite Hrest. reflexivity.
Qed.

(** The first item that fails decides the exception. *)
Lemma for_each_inl {A B} (f : A -> exn + B) (before : list A) (x : A)
  (after : list A) (e : exn) :
  Forall (fun y => exists b, f y = inr b) before ->
  f x = inl e ->
  for_each f (before ++ x :: after) = inl e.
Proof.
  intros Hbefore Hx. induction Hbefore as [|y before [b Hy] _ IH]; cbn [app for_each].
  - rewrite Hx. reflexivity.
  - rewrite Hy. cbn [and_then]. rewrite IH. reflexivity.
Qed.

(** A failure of the loop is the failure of one of its items. *)
Lemma for_each_inl_inv {A B} (f : A -> exn + B) (l : list A) (e : exn) :
  for_each f l = inl e -> exists x, In x l /\ f x = inl e.
Proof.
  induction l as [|a l IH]; cbn [for_each]; [discriminate|].
  unfold and_then. destruct (f a) as [e'|b] eqn:Hb.
  - intros [= ->]. exists a. split; [left; reflexivity|exact Hb].
  - destruct (for_each f l) as [e'|bs]; [|discriminate].
    intros [= ->]. destruct (IH eq_refl) as (x & Hin & Hx).
    exists x. split; [right; exact Hin|exact Hx].
Qed.

Lemma format_item_inr (x : Item) (line : string) :
  format_item x = inr line <->
  exists v s,
    py_format (getattr (value x) (PyDict [])) = inr v /\
    py_format (getattr (score x) PyNone) = inr s /\
    line = key x +:+ ": " +:+ v +:+ " (score=" +:+ s +:+ ")".
Proof.
  unfold format_item, and_then. split.
  - destruct (py_format (getattr (value x) _)) as [e|v]; [discriminate|].
    destruct (py_format (getattr (score x) _)) as [e|s]; [discriminate|].
    intros [= <-]. exists v, s. repeat split.
  - intros (v & s & -> & -> & ->). reflexivity.
Qed.

Lemma format_item_inl (x : Item) (e : exn) :
  format_item x = inl e <->
  py_format (getattr (value x) (PyDict [])) = inl e \/
  (exists v, py_format (getattr (value x) (PyDict [])) = inr v /\
             py_format (getattr (score x) PyNone) = inl e).
Proof.
  unfold format_item, and_then. split.
  - destruct (py_format (getattr (value x) _)) as [e'|v]; [intros [= ->]; left; reflexivity|].
    destruct (py_format (getattr (score x) _)) as [e'|s]; [|discriminate].
    intros [= ->]. right. exists v. split; reflexivity.
  - intros [->|(v & -> & ->)]; reflexivity.
Qed.

End Rendering.

(** C6.  When the store's search yields at least one result and every
    result can be printed, the tool returns one line per result, in the
    store's order, with one line break between two lines and none after the
    last.  The line of a result is its key, ": ", the value as an f-string
    field prints it, " (score=", the score printed likewise, and ")"; a
    result without a value shows the empty mapping and a result without a
    score shows None.  When a result cannot be printed (an int with more
    digits than the interpreter prints, or a nesting deeper than its
    recursion limit allows) and the results before it can, the tool ends
    with the exception of that result instead. *)
Theorem search_memories_renders_results
  (S : Type) (St : BaseStore S) (Py : Interpreter) (w : World S)
  query limit user_id (s' : S) (r : Item) (rs : list Item) :
  asearch ["memories"; user_id] (or_else query "") limit (store w) = (s', inr (r :: rs)) ->
  let line_of (x : Item) (line : string) :=
    exists v s,
      py_format (getattr (value x) (PyDict [])) = inr v /\
      py_format (getattr (score x) PyNone) = inr s /\
      line = key x +:+ ": " +:+ v +:+ " (score=" +:+ s +:+ ")" in
  let outcome := snd (run (search_memories query limit user_id) w) in
  (forall lines : list string,
     Forall2 line_of (r :: rs) lines ->
     outcome = Returned (Text.join (String "010"%char "") lines)) /\
  (forall (x : Item) (l1 l2 : string),
     rs = [x] -> line_of r l1 -> line_of x l2 ->
     outcome = Returned (l1 +:+ String "010"%char l2)) /\
  (forall (before : list Item) (x : Item) (after : list Item) (e : exn),
     r :: rs = (before ++ x :: after)%list ->
     Forall (fun y => exists line, line_of y line) before ->
     py_format (getattr (value x) (PyDict [])) = inl e \/
     (exists v, py_format (getattr (value x) (PyDict [])) = inr v /\
                py_format (getattr (score x) PyNone) = inl e) ->
     outcome = Raised e) /\
  ((2 <= recursion_remaining)%nat ->
   forall x : Item,
     (value x = None -> py_format (getattr (value x) (PyDict [])) = inr "{}") /\
     (score x = None -> py_format (getattr (score x) PyNone) = inr "None")) /\
  ((3 <= recursion_remaining)%nat ->
   line_of (mkItem "abc" (Some (PyDict [("content", PyStr "x")]))
              (Some (PyFloat (FFinite false [9] 0))))
     "abc: {'content': 'x'} (score=0.9)").
Proof.
  intros Hfound line_of outcome.
  assert (Hline : forall x line, line_of x line <-> format_item x = inr line).
  { intros x line. symmetry. apply format_item_inr. }
  assert (Hout : outcome =
                 match for_each format_item (r :: rs) with
                 | inl e => Raised e
                 | inr [] => Returned "No memories found"
                 | inr (l :: ls) => Returned (Text.join newline (l :: ls))
                 end).
  { unfold outcome. rewrite search_memories_outcome, Hfound. reflexivity. }
  assert (Hall : forall lines, Forall2 line_of (r :: rs) lines ->
                  outcome = Returned (Text.join (String "010"%char "") lines)).
  { intros lines Hlines.
    assert (Heach : for_each format_item (r :: rs) = inr lines).
    { apply for_each_inr. eapply Forall2_impl; [exact Hlines|].
      intros x line Hx. apply Hline, Hx. }
    rewrite Hout, Heach. inversion Hlines; subst. reflexivity. }
  split; [exact Hall|]. split.
  { intros x l1 l2 -> H1 H2.
    rewrite (Hall [l1; l2]) by (repeat constructor; assumption).
    reflexivity. }
  split.
  { intros before x after e Hsplit Hbefore Hx.
    rewrite Hout, Hsplit, (for_each_inl format_item before x after e); [reflexivity| |].
    - eapply Forall_impl; [exact Hbefore|].
      intros y [line Hy]. exists line. apply Hline, Hy.
    - apply format_item_inl, Hx. }
  split.
  { intros Hroom x. unfold py_format.
    destruct recursion_remaining as [|[|fuel]]; [lia|lia|].
    split; intros ->; reflexivity. }
  intros Hroom. apply Hline. unfold format_item, py_format.
  destruct recursion_remaining as [|[|[|fuel]]]; [lia|lia|lia|].
  reflexivity.
Qed.

Lemma sample_search_u1 :
  DictStore.search ["memories"; "u1"] 10 Sample.records =
  [mkItem (UUID.str Sample.id)
     (Some (PyDict (memory_value "old" "ctx" (Some 3) (Some ["t"]) "2023-12-31T23:59:59")))
     (Some PyNone)].
Proof. vm_compute. reflexivity. Qed.

Lemma sample_search_u1_two :
  DictStore.search ["memories"; "u1"] 10 Sample.records2 =
  [mkItem (UUID.str (UUID.mk 256))
     (Some (PyDict (memory_value "new" "ctx2" None None "2024-01-01T00:00:00")))
     (Some PyNone);
   mkItem (UUID.str Sample.id)
     (Some (PyDict (memory_value "old" "ctx" (Some 3) (Some ["t"]) "2023-12-31T23:59:59")))
     (Some PyNone)].
Proof. vm_compute. reflexivity. Qed.

Lemma search_memories_renders_results_witness :
  snd (run (search_memories (Py := Sample.python) None 10 "u1") Sample.populated2) =
  Returned
    ("00000000-0000-0000-0000-000000000100: " +:+
     "{'content': 'new', 'context': 'ctx2', 'importance': None, 'tags': [], " +:+
     "'timestamp': '2024-01-01T00:00:00'} (score=None)" +:+
     String "010"%char
       ("00000000-0000-0000-0000-0000000000ff: " +:+
        "{'content': 'old', 'context': 'ctx', 'importance': 3, 'tags': ['t'], " +:+
        "'timestamp': '2023-12-31T23:59:59'} (score=None)")).
Proof.
  destruct (search_memories_renders_results _ _ Sample.python Sample.populated2
              None 10 "u1" Sample.records2
              (mkItem (UUID.str (UUID.mk 256))
                 (Some (PyDict (memory_value "new" "ctx2" None None
                                  "2024-01-01T00:00:00")))
                 (Some PyNone))
              [mkItem (UUID.str Sample.id)
                 (Some (PyDict (memory_value "old" "ctx" (Some 3) (Some ["t"])
                                  "2023-12-31T23:59:59")))
                 (Some PyNone)])
    as (_ & Htwo & _).
  - unfold asearch, DictStore.store, Sample.populated2, Sample.world. cbn [store or_else].
    rewrite sample_search_u1_two. reflexivity.
  - rewrite (Htwo _
               ("00000000-0000-0000-0000-000000000100: " +:+
                "{'content': 'new', 'context': 'ctx2', 'importance': None, 'tags': [], " +:+
                "'timestamp': '2024-01-01T00:00:00'} (score=None)")
               ("00000000-0000-0000-0000-0000000000ff: " +:+
                "{'content': 'old', 'context': 'ctx', 'importance': 3, 'tags': ['t'], " +:+
                "'timestamp': '2023-12-31T23:59:59'} (score=None)")
               eq_refl).
    + reflexivity.
    + eexists. eexists. split; [reflexivity|]. split; reflexivity.
    + eexists. eexists. split; [reflexivity|]. split; reflexivity.
Defined.

(** The claim C6 as stated fails: not every non-empty sequence of results is
    rendered.  [upsert_memory] stores any int as importance; once it has
    stored one of 4301 digits, the store's search yields that memory and
    [search_memories] raises ValueError instead of returning a line. *)
Lemma search_memories_unprintable_result :
  let w := fst (run (upsert_memory "owes" "said so" (Some (10 ^ 4300)) None
                       (Some Sample.id) "u1") Sample.empty) in
  (exists r, DictStore.search ["memories"; "u1"] 10 (store w) = [r]) /\
  snd (run (search_memories (Py := Sample.python) None 10 "u1") w) =
  Raised (ValueError
            ("Exceeds the limit (4300 digits) for integer string conversion; " +:+
             "use sys.set_int_max_str_digits() to increase the limit")).
Proof.
  cbv zeta. split; [eexists|]; vm_compute; reflexivity.
Qed.

(** ** Failure of the store *)

(** C7.  A failing store call is the tool's failure.  When [aput] fails with
    an exception, [upsert_memory] ends with that same exception and no
    confirmation; when [asearch] fails, [search_memories] ends with that same
    exception and no summary.  In both cases the store received exactly the
    one request (no second attempt), and the world is left as it was after
    the failed call: the store as the call left it, nothing else written. *)
Theorem store_failure_propagates
  (S : Type) (St : BaseStore S) (Py : Interpreter) (w : World S) (s' : S) (e : exn) :
  (forall content context importance tags memory_id user_id,
     let req := ReqPut ["memories"; user_id] (UUID.str (effective_id memory_id w))
                  (memory_value content context importance tags
                     (Datetime.isoformat (clock w (ticks w)))) in
     aput ["memories"; user_id] (UUID.str (effective_id memory_id w))
       (memory_value content context importance tags
          (Datetime.isoformat (clock w (ticks w)))) (store w) = (s', Some e) ->
     run (upsert_memory content context importance tags memory_id user_id) w =
     (mkWorld (entropy w) (drawn w + id_bytes memory_id) (clock w)
        (Datatypes.S (ticks w)) s' (log w ++ [req]),
      Raised e)) /\
  (forall query limit user_id,
     asearch ["memories"; user_id] (or_else query "") limit (store w) = (s', inl e) ->
     run (search_memories query limit user_id) w =
     (mkWorld (entropy w) (drawn w) (clock w) (ticks w) s'
        (log w ++ [ReqSearch ["memories"; user_id] (or_else query "") limit]),
      Raised e)).
Proof.
  split.
  - intros content context importance tags memory_id user_id req Hfail.
    rewrite run_upsert_memory. cbv zeta. rewrite Hfail. reflexivity.
  - intros query limit user_id Hfail.
    rewrite run_search_memories. cbv zeta. rewrite Hfail. reflexivity.
Qed.

Lemma store_failure_propagates_witness :
  snd (run (upsert_memory "likes tea" "said so" None None (Some Sample.id) "u1")
         Sample.broken) = Raised BrokenStore.error /\
  length (log (fst (run (upsert_memory "likes tea" "said so" None None (Some Sample.id) "u1")
                      Sample.broken))) = 1%nat /\
  snd (run (search_memories (Py := Sample.python) None 10 "u1") Sample.broken) =
    Raised BrokenStore.error.
Proof.
  destruct (store_failure_propagates _ _ Sample.python Sample.broken 1%nat
              BrokenStore.error)
    as [Hput Hsearch].
  split; [|split].
  - rewrite (Hput "likes tea" "said so" None None (Some Sample.id) "u1" eq_refl).
    reflexivity.
  - rewrite (Hput "likes tea" "said so" None None (Some Sample.id) "u1" eq_refl).
    reflexivity.
  - rewrite (Hsearch None 10 "u1" eq_refl). reflexivity.
Defined.

(** ** Isolation of users *)

Lemma namespace_distinct (u1 u2 : string) :
  u1 <> u2 -> ["memories"; u1] <> ["memories"; u2].
Proof. intros Hne Heq. apply Hne. congruence. Qed.

(** C8.  For distinct users [u1] and [u2], the tools called for [u1] send
    the store requests for the namespace [("memories", u1)] only.  On the
    reference store an upsert for [u1] leaves every record of [u2] as it
    was, a search for [u1] leaves the store as it was, and its result is the
    same on any two stores that differ only in the records of [u2]. *)
Theorem user_isolation (Py : Interpreter) (u1 u2 : string) :
  u1 <> u2 ->
  (forall (S : Type) (St : BaseStore S) (w : World S)
          content context importance tags memory_id,
     exists req,
       log (fst (run (upsert_memory content context importance tags memory_id u1) w)) =
         (log w ++ [req])%list /\
       request_namespace req = ["memories"; u1] /\
       request_namespace req <> ["memories"; u2]) /\
  (forall (S : Type) (St : BaseStore S) (w : World S) query limit,
     exists req,
       log (fst (run (search_memories query limit u1) w)) = (log w ++ [req])%list /\
       request_namespace req = ["memories"; u1] /\
       request_namespace req <> ["memories"; u2]) /\
  (forall (w : World DictStore.t) content context importance tags memory_id (k : string),
     store (fst (run (upsert_memory content context importance tags memory_id u1) w))
       !! (["memories"; u2], k) = store w !! (["memories"; u2], k)) /\
  (forall (w : World DictStore.t) query limit,
     store (fst (run (search_memories query limit u1) w)) = store w) /\
  (forall (w w' : World DictStore.t) query limit,
     (forall (ns : namespace) (k : string),
        ns <> ["memories"; u2] -> store w !! (ns, k) = store w' !! (ns, k)) ->
     snd (run (search_memories query limit u1) w) =
     snd (run (search_memories query limit u1) w')).
Proof.
  intros Hne. pose proof (namespace_distinct u1 u2 Hne) as Hns.
  split; [|split; [|split; [|split]]].
  - intros S St w content context importance tags memory_id.
    eexists. split; [apply upsert_memory_log|]. split; [reflexivity|exact Hns].
  - intros S St w query limit.
    eexists. split; [apply search_memories_log|]. split; [reflexivity|exact Hns].
  - intros w content context importance tags memory_id k.
    rewrite upsert_memory_store. cbn [aput DictStore.store fst].
    apply DictStoreFacts.lookup_put_ne. intros Heq. apply Hns. congruence.
  - intros w query limit. rewrite search_memories_store. reflexivity.
  - intros w w' query limit Hagree.
    rewrite !search_memories_outcome. cbn [asearch DictStore.store snd].
    rewrite (DictStoreFacts.search_agree ["memories"; u1] limit (store w) (store w'));
      [reflexivity|].
    intros ns k Hprefix. apply Hagree. intros ->. apply Hns.
    symmetry. exact Hprefix.
Qed.

Lemma user_isolation_witness :
  store (fst (run (upsert_memory "likes tea" "said so" None None None "u1")
                Sample.populated)) !! (["memories"; "u2"], "k2") =
  Sample.records !! (["memories"; "u2"], "k2").
Proof.
  destruct (user_isolation Sample.python "u1" "u2") as (_ & _ & Hkept & _).
  - discriminate.
  - apply (Hkept Sample.populated).
Defined.

(** ** Timestamps *)

Section Timestamps.

Context {S : Type} `{BaseStore S}.

(** Two upserts in a row: the log and the clock after the second. *)
Lemma upsert_memory_twice c1 x1 i1 t1 m1 u1 c2 x2 i2 t2 m2 u2 (w : World S) :
  let w1 := fst (run (upsert_memory c1 x1 i1 t1 m1 u1) w) in
  let w2 := fst (run (upsert_memory c2 x2 i2 t2 m2 u2) w1) in
  log w2 =
  (log w ++
   [ReqPut ["memories"; u1] (UUID.str (effective_id m1 w))
      (memory_value c1 x1 i1 t1 (Datetime.isoformat (clock w (ticks w))));
    ReqPut ["memories"; u2] (UUID.str (effective_id m2 w1))
      (memory_value c2 x2 i2 t2
         (Datetime.isoformat (clock w (Datatypes.S (ticks w)))))])%list /\
  ticks w2 = Datatypes.S (Datatypes.S (ticks w)).
Proof.
  intros w1 w2. subst w2.
  pose proof (upsert_memory_counters c1 x1 i1 t1 m1 u1 w) as (_ & Hticks & _ & Hclock).
  pose proof (upsert_memory_counters c2 x2 i2 t2 m2 u2 w1) as (_ & Hticks2 & _).
  fold w1 in Hticks, Hclock.
  rewrite upsert_memory_log, Hticks2, Hticks, Hclock.
  split; [|reflexivity].
  unfold w1 at 1. rewrite upsert_memory_log, <- app_assoc. reflexivity.
Qed.

End Timestamps.

(** C9.  Every call of [upsert_memory], creating or updating, whatever its
    arguments and whatever the clock shows, reads the clock exactly once and
    writes, as timestamp, the ISO-8601 text of that reading; no argument of
    the call enters it.  On the reference store the record then holds the
    timestamp of this write.  When the clock's next reading is later than
    the current one, two upserts in a row of the same [memory_id] write two
    different timestamps, the second not before the first in the order of
    texts. *)
Theorem upsert_memory_timestamp_fresh :
  (forall (S : Type) (St : BaseStore S) (w : World S)
          content context importance tags (memory_id : option UUID.t) user_id,
     let w1 := fst (run (upsert_memory content context importance tags memory_id
                           user_id) w) in
     let ts := Datetime.isoformat (clock w (ticks w)) in
     ticks w1 = Datatypes.S (ticks w) /\
     clock w1 = clock w /\
     exists v,
       log w1 = (log w ++ [ReqPut ["memories"; user_id]
                             (UUID.str (effective_id memory_id w)) v])%list /\
       dict_get "timestamp" v = Some (PyStr ts)) /\
  (forall (w : World DictStore.t)
          content context importance tags (memory_id : option UUID.t) user_id,
     let w1 := fst (run (upsert_memory content context importance tags memory_id
                           user_id) w) in
     exists v,
       store w1 !! (["memories"; user_id], UUID.str (effective_id memory_id w)) = Some v /\
       dict_get "timestamp" v = Some (PyStr (Datetime.isoformat (clock w (ticks w))))) /\
  (forall (S : Type) (St : BaseStore S) (w : World S)
          c1 x1 i1 t1 c2 x2 i2 t2 (memory_id : UUID.t) user_id,
     Datetime.valid (clock w (ticks w)) ->
     Datetime.valid (clock w (Datatypes.S (ticks w))) ->
     Datetime.lt (clock w (ticks w)) (clock w (Datatypes.S (ticks w))) ->
     let w1 := fst (run (upsert_memory c1 x1 i1 t1 (Some memory_id) user_id) w) in
     let w2 := fst (run (upsert_memory c2 x2 i2 t2 (Some memory_id) user_id) w1) in
     let ts1 := Datetime.isoformat (clock w (ticks w)) in
     let ts2 := Datetime.isoformat (clock w (Datatypes.S (ticks w))) in
     ticks w1 = Datatypes.S (ticks w) /\
     ticks w2 = Datatypes.S (ticks w1) /\
     (exists v1 v2,
        log w2 =
        (log w ++ [ReqPut ["memories"; user_id] (UUID.str memory_id) v1;
                   ReqPut ["memories"; user_id] (UUID.str memory_id) v2])%list /\
        dict_get "timestamp" v1 = Some (PyStr ts1) /\
        dict_get "timestamp" v2 = Some (PyStr ts2)) /\
     ts1 <> ts2 /\
     (ts1 ≤ ts2)%string).
Proof.
  split; [|split].
  - intros S St w content context importance tags memory_id user_id w1 ts.
    pose proof (upsert_memory_counters content context importance tags memory_id
                  user_id w) as (_ & Hticks & _ & Hclock).
    split; [exact Hticks|]. split; [exact Hclock|].
    eexists. split; [apply upsert_memory_log|reflexivity].
  - intros w content context importance tags memory_id user_id w1. subst w1.
    eexists. rewrite upsert_memory_store. cbn [aput DictStore.store fst].
    split; [apply DictStoreFacts.lookup_put|reflexivity].
  - intros S St w c1 x1 i1 t1 c2 x2 i2 t2 memory_id user_id Hv1 Hv2 Hlt w1 w2 ts1 ts2.
    pose proof (upsert_memory_twice c1 x1 i1 t1 (Some memory_id) user_id
                  c2 x2 i2 t2 (Some memory_id) user_id w) as Htwice.
    cbv zeta in Htwice. destruct Htwice as (Hlog & Hticks2).
    pose proof (upsert_memory_counters c1 x1 i1 t1 (Some memory_id) user_id w)
      as (_ & Hticks1 & _).
    split; [exact Hticks1|].
    split; [subst w2 w1; rewrite Hticks2, Hticks1; reflexivity|].
    split.
    { eexists. eexists. split; [exact Hlog|]. split; reflexivity. }
    exact (DatetimeFacts.isoformat_lt _ _ Hv1 Hv2 Hlt).
Qed.

Lemma sample_clock_valid (n : nat) :
  Z.of_nat n <= 999999 -> Datetime.valid (Sample.clock n).
Proof.
  intros Hn. unfold Datetime.valid, Sample.clock.
  cbn [Datetime.year Datetime.month Datetime.day Datetime.hour Datetime.minute
       Datetime.second Datetime.microsecond].
  change (Datetime.days_in_month 2024 1) with 31. lia.
Qed.

Lemma upsert_memory_timestamp_fresh_witness :
  Datetime.isoformat (Sample.clock 0) <> Datetime.isoformat (Sample.clock 1) /\
  (Datetime.isoformat (Sample.clock 0) ≤ Datetime.isoformat (Sample.clock 1))%string.
Proof.
  destruct upsert_memory_timestamp_fresh as (_ & _ & Htwo).
  pose proof (Htwo _ _ Sample.populated
                "likes tea" "said so" None None "likes coffee" "corrected" (Some 2) None
                Sample.id "u1"
                (sample_clock_valid 0 ltac:(lia)) (sample_clock_valid 1 ltac:(lia))
                eq_refl) as Hfresh.
  cbv zeta in Hfresh. destruct Hfresh as (_ & _ & _ & Hne & Hle).
  split; [exact Hne|exact Hle].
Defined.

(** On the reference store, the record holds the timestamp of the latest
    write to it. *)
Lemma upsert_memory_timestamp_stored (w : World DictStore.t)
  content context importance tags (memory_id : UUID.t) user_id :
  exists v,
    store (fst (run (upsert_memory content context importance tags (Some memory_id)
                       user_id) w))
      !! (["memories"; user_id], UUID.str memory_id) = Some v /\
    dict_get "timestamp" v = Some (PyStr (Datetime.isoformat (clock w (ticks w)))).
Proof.
  eexists. rewrite upsert_memory_store. cbn [aput DictStore.store fst effective_id].
  split; [apply DictStoreFacts.lookup_put|reflexivity].
Qed.

(** * Further properties of the two tools *)

(** ** What the tools raise and what they touch *)

(** X1.  The tools have no failure of their own: [upsert_memory] ends with
    an exception exactly when the store's [aput] failed with it, and returns
    its confirmation exactly when [aput] succeeded.  In particular building
    the identifier with [uuid4] never raises. *)
Theorem upsert_memory_raises_only_store_errors
  (S : Type) (St : BaseStore S) (w : World S)
  content context importance tags memory_id user_id (e : exn) :
  let outcome := snd (run (upsert_memory content context importance tags memory_id
                             user_id) w) in
  let failure := snd (aput ["memories"; user_id] (UUID.str (effective_id memory_id w))
                        (memory_value content context importance tags
                           (Datetime.isoformat (clock w (ticks w)))) (store w)) in
  (outcome = Raised e <-> failure = Some e) /\
  (outcome = Returned ("Stored memory " +:+ UUID.str (effective_id memory_id w))
   <-> failure = None).
Proof.
  cbv zeta. rewrite upsert_memory_outcome.
  destruct (snd (aput _ _ _ _)) as [e'|]; split; split; intros Heq;
    try discriminate; try reflexivity; congruence.
Qed.

(** What printing raises is a ValueError or a RecursionError. *)
Lemma repr_raises (max_digits : Z) (fuel : nat) (v : pyval) (e : exn) :
  Repr.repr max_digits fuel v = inl e ->
  exn_type e = "ValueError" \/ exn_type e = "RecursionError".
Proof.
  revert v e. induction fuel as [|fuel IH]; intros v e; cbn [Repr.repr].
  { intros [= <-]. right. reflexivity. }
  assert (Hall : forall l e', for_each (Repr.repr max_digits fuel) l = inl e' ->
                   exn_type e' = "ValueError" \/ exn_type e' = "RecursionError").
  { intros l e' Hl. apply for_each_inl_inv in Hl as (x & _ & Hx). exact (IH x e' Hx). }
  destruct v as [|n|x|s|items|entries]; try discriminate.
  - unfold Repr.int. destruct (_ && _); [|discriminate].
    intros [= <-]. left. reflexivity.
  - unfold and_then. destruct (for_each _ items) as [e'|texts] eqn:Hitems; [|discriminate].
    intros [= <-]. exact (Hall _ _ Hitems).
  - unfold and_then at 1.
    destruct (for_each _ entries) as [e'|texts] eqn:Hentries; [|discriminate].
    intros [= <-]. apply for_each_inl_inv in Hentries as ([k x] & _ & Hkx).
    cbn [fst snd] in Hkx. unfold and_then in Hkx.
    destruct (Repr.repr max_digits fuel (PyStr k)) as [e1|kt] eqn:Hk;
      [injection Hkx as <-; exact (IH _ _ Hk)|].
    destruct (Repr.repr max_digits fuel x) as [e2|xt] eqn:Hx; [|discriminate].
    injection Hkx as <-. exact (IH _ _ Hx).
Qed.

Lemma format_raises (max_digits : Z) (fuel : nat) (v : pyval) (e : exn) :
  Repr.format max_digits fuel v = inl e ->
  exn_type e = "ValueError" \/ exn_type e = "RecursionError".
Proof.
  unfold Repr.format.
  destruct v as [|n|x|s|items|entries]; try discriminate;
    destruct fuel as [|[|fuel]];
    try (intros [= <-]; right; reflexivity);
    try apply repr_raises;
    try (unfold Repr.int; destruct (_ && _); [|discriminate];
         intros [= <-]; left; reflexivity).
Qed.

(** X2.  [search_memories] ends with an exception exactly when the store's
    [asearch] failed with it, or [asearch] succeeded and printing the
    results raised it.  In the second case the exception comes from the
    f-string of one of the results and is a ValueError (an int of more
    digits than the interpreter prints) or a RecursionError (a nesting
    deeper than the interpreter allows), nothing else. *)
Theorem search_memories_raises_store_or_print_errors
  (S : Type) (St : BaseStore S) (Py : Interpreter) (w : World S)
  query limit user_id (e : exn) :
  let found := snd (asearch ["memories"; user_id] (or_else query "") limit (store w)) in
  let outcome := snd (run (search_memories query limit user_id) w) in
  (outcome = Raised e <->
   found = inl e \/ exists rs, found = inr rs /\ for_each format_item rs = inl e) /\
  (forall rs, found = inr rs -> outcome = Raised e ->
     (exn_type e = "ValueError" \/ exn_type e = "RecursionError") /\
     exists x, In x rs /\ format_item x = inl e) /\
  ((exists text, outcome = Returned text) <->
   exists rs lines, found = inr rs /\ for_each format_item rs = inr lines).
Proof.
  cbv zeta. rewrite search_memories_outcome.
  destruct (snd (asearch _ _ _ _)) as [e'|rs].
  { split; [|split].
    - split; [intros [= ->]; left; reflexivity|].
      intros [[= ->]|(rs & Hrs & _)]; [reflexivity|discriminate].
    - intros rs Hrs. discriminate.
    - split; [intros [text Ht]; discriminate|intros (rs & lines & Hrs & _); discriminate]. }
  destruct (for_each format_item rs) as [e'|lines] eqn:Hlines.
  { split; [|split].
    - split; [intros [= ->]; right; exists rs; split; [reflexivity|exact Hlines]|].
      intros [Hfail|(rs' & [= <-] & Hrs')]; [discriminate|congruence].
    - intros rs' [= <-] [= ->].
      apply for_each_inl_inv in Hlines as (x & Hin & Hx).
      split; [|exists x; split; assumption].
      apply format_item_inl in Hx as [Hx|(v & _ & Hx)];
        exact (format_raises _ _ _ _ Hx).
    - split; [intros [text Ht]; discriminate|].
      intros (rs' & lines & [= <-] & Hrs'). congruence. }
  split; [|split].
  - split; [destruct lines; discriminate|].
    intros [Hfail|(rs' & [= <-] & Hrs')]; [discriminate|congruence].
  - intros rs' _ Hraised. destruct lines; discriminate.
  - split; [intros _; exists rs, lines; split; [reflexivity|exact Hlines]|].
    intros _. destruct lines; eexists; reflexivity.
Qed.

(** X3.  [search_memories] only reads: it takes no entropy, does not read
    the clock, and the one request it sends is a search, never a write.  The
    store changes only as far as its own search call changes it. *)
Theorem search_memories_read_only
  (S : Type) (St : BaseStore S) (Py : Interpreter) (w : World S) query limit user_id :
  let w' := fst (run (search_memories query limit user_id) w) in
  entropy w' = entropy w /\ drawn w' = drawn w /\
  clock w' = clock w /\ ticks w' = ticks w /\
  (forall ns k v, ~ In (ReqPut ns k v) (skipn (length (log w)) (log w'))) /\
  length (log w') = Datatypes.S (length (log w)) /\
  store w' = fst (asearch ["memories"; user_id] (or_else query "") limit (store w)).
Proof.
  cbv zeta.
  pose proof (search_memories_log query limit user_id w) as Hlog.
  pose proof (search_memories_store query limit user_id w) as Hstore.
  rewrite run_search_memories in *. cbv zeta in *.
  destruct (asearch _ _ _ _) as [s' [e'|rs]]; cbn [fst snd entropy drawn clock ticks log store] in *;
    (repeat split; try reflexivity;
     [ intros ns k v; rewrite drop_app_length; intros [Hin|[]]; discriminate
     | rewrite length_app; cbn; lia ]).
Qed.

(** ** Create, overwrite and read back on the reference store *)

(** X4.  Creating: without a [memory_id], when the key of the generated
    identifier is not in use, the store gains exactly one record, at that
    key, and every record it had is kept. *)
Theorem upsert_memory_creates_one_record
  (w : World DictStore.t) content context importance tags user_id :
  let slot := (["memories"; user_id], UUID.str (fresh_uuid w)) in
  let w' := fst (run (upsert_memory content context importance tags None user_id) w) in
  store w !! slot = None ->
  size (store w') = Datatypes.S (size (store w)) /\
  store w' !! slot =
    Some (memory_value content context importance tags
            (Datetime.isoformat (clock w (ticks w)))) /\
  (forall other v, store w !! other = Some v -> store w' !! other = Some v).
Proof.
  intros slot w' Hfree. subst w'.
  rewrite upsert_memory_store. cbn [effective_id aput DictStore.store fst].
  split; [apply DictStoreFacts.size_put_fresh, Hfree|].
  split; [apply DictStoreFacts.lookup_put|].
  intros other v Hother. rewrite DictStoreFacts.lookup_put_ne; [exact Hother|].
  intros Heq. subst other. unfold slot in Hfree.
  rewrite Hfree in Hother. discriminate.
Qed.

Lemma sample_fresh_slot_free :
  Sample.records !! (["memories"; "u1"], UUID.str (fresh_uuid Sample.populated)) = None.
Proof. vm_compute. reflexivity. Qed.

Lemma upsert_memory_creates_one_record_witness :
  size (store (fst (run (upsert_memory "likes tea" "said so" None None None "u1")
                      Sample.populated))) = 3%nat.
Proof.
  destruct (upsert_memory_creates_one_record Sample.populated
              "likes tea" "said so" None None "u1" sample_fresh_slot_free)
    as (Hsize & _).
  rewrite Hsize. vm_compute. reflexivity.
Defined.

(** X5.  Overwriting: after two upserts in a row under the same [memory_id]
    the store is what the second upsert alone would have written into the
    original store; nothing of the first value remains, not even fields the
    second call left unspecified. *)
Theorem upsert_memory_last_write_wins
  (w : World DictStore.t) c1 x1 i1 t1 c2 x2 i2 t2 (memory_id : UUID.t) user_id :
  let w1 := fst (run (upsert_memory c1 x1 i1 t1 (Some memory_id) user_id) w) in
  let w2 := fst (run (upsert_memory c2 x2 i2 t2 (Some memory_id) user_id) w1) in
  let v2 := memory_value c2 x2 i2 t2
              (Datetime.isoformat (clock w (Datatypes.S (ticks w)))) in
  store w2 = DictStore.put ["memories"; user_id] (UUID.str memory_id) v2 (store w) /\
  store w2 !! (["memories"; user_id], UUID.str memory_id) = Some v2 /\
  size (store w2) = size (store w1).
Proof.
  intros w1 w2 v2.
  pose proof (upsert_memory_counters c1 x1 i1 t1 (Some memory_id) user_id w)
    as (_ & Hticks & _ & Hclock).
  fold w1 in Hticks, Hclock.
  assert (Hw2 : store w2 =
                DictStore.put ["memories"; user_id] (UUID.str memory_id) v2 (store w1)).
  { subst w2. rewrite upsert_memory_store. cbn [effective_id aput DictStore.store fst].
    rewrite Hticks, Hclock. reflexivity. }
  assert (Hw1 : store w1 =
                DictStore.put ["memories"; user_id] (UUID.str memory_id)
                  (memory_value c1 x1 i1 t1 (Datetime.isoformat (clock w (ticks w))))
                  (store w)).
  { subst w1. rewrite upsert_memory_store. reflexivity. }
  split; [|split].
  - rewrite Hw2, Hw1. unfold DictStore.put. apply insert_insert_eq.
  - rewrite Hw2. apply DictStoreFacts.lookup_put.
  - rewrite Hw2. apply DictStoreFacts.size_put_existing.
    rewrite Hw1, DictStoreFacts.lookup_put. eexists. reflexivity.
Qed.

(** An int within the limit prints as its decimal text. *)
Lemma int_within (max_digits n : Z) :
  (0 < max_digits -> Z.abs n < 10 ^ max_digits) ->
  Repr.int max_digits n = inr (pretty n).
Proof.
  intros Hn. unfold Repr.int, Repr.more_digits_than.
  destruct (Z.ltb_spec 0 max_digits) as [Hpos|_]; [|reflexivity].
  destruct (Z.leb_spec (10 ^ max_digits) (Z.abs n)) as [Hbig|_]; [|reflexivity].
  specialize (Hn Hpos). lia.
Qed.

Lemma repr_str (max_digits : Z) (fuel : nat) (s : string) :
  Repr.repr max_digits (Datatypes.S fuel) (PyStr s) = inr (Repr.str s).
Proof. reflexivity. Qed.

Lemma repr_list (max_digits : Z) (fuel : nat) (items : list pyval) :
  Repr.repr max_digits (Datatypes.S fuel) (PyList items) =
  and_then (for_each (Repr.repr max_digits fuel) items) (fun texts =>
  inr ("[" +:+ Text.join ", " texts +:+ "]")).
Proof. reflexivity. Qed.

Lemma repr_dict (max_digits : Z) (fuel : nat) (entries : pydict) :
  Repr.repr max_digits (Datatypes.S fuel) (PyDict entries) =
  and_then
    (for_each
       (fun kv =>
          and_then (Repr.repr max_digits fuel (PyStr (fst kv))) (fun k =>
          and_then (Repr.repr max_digits fuel (snd kv)) (fun x =>
          inr (k +:+ ": " +:+ x))))
       entries)
    (fun texts => inr ("{" +:+ Text.join ", " texts +:+ "}")).
Proof. reflexivity. Qed.

Lemma repr_strs (max_digits : Z) (fuel : nat) (l : list string) :
  for_each (Repr.repr max_digits (Datatypes.S fuel)) (map PyStr l) =
  inr (map Repr.str l).
Proof.
  induction l as [|t l IH]; [reflexivity|].
  cbn [map for_each]. rewrite IH. reflexivity.
Qed.

(** The text [repr] gives for a value that [upsert_memory] stored, when the
    interpreter allows the three nested calls it takes (the dict, the list
    of tags, a tag) and prints the importance. *)
Lemma repr_memory_value (max_digits : Z) (fuel : nat)
  content context importance tags timestamp :
  (forall n, importance = Some n -> 0 < max_digits -> Z.abs n < 10 ^ max_digits) ->
  Repr.repr max_digits (Datatypes.S (Datatypes.S (Datatypes.S fuel)))
    (PyDict (memory_value content context importance tags timestamp)) =
  inr ("{'content': " +:+ Repr.str content +:+
       ", 'context': " +:+ Repr.str context +:+
       ", 'importance': " +:+
       match importance with Some n => pretty n | None => "None" end +:+
       ", 'tags': [" +:+
       Text.join ", " (map Repr.str (match tags with Some l => l | None => [] end)) +:+
       "], 'timestamp': " +:+ Repr.str timestamp +:+ "}").
Proof.
  intros Himportance. unfold memory_value, py_strlist. rewrite or_else_nil.
  assert (Hint : Repr.repr max_digits (Datatypes.S (Datatypes.S fuel))
                   (py_optint importance) =
                 inr match importance with Some n => pretty n | None => "None" end).
  { destruct importance as [n|]; [|reflexivity].
    cbn [py_optint Repr.repr]. apply int_within, Himportance. reflexivity. }
  rewrite repr_dict. cbn [for_each fst snd].
  rewrite !repr_str, Hint, repr_list, repr_strs.
  cbn [and_then Text.join].
  change (Repr.str "content") with "'content'".
  change (Repr.str "context") with "'context'".
  change (Repr.str "importance") with "'importance'".
  change (Repr.str "tags") with "'tags'".
  change (Repr.str "timestamp") with "'timestamp'".
  rewrite !TextFacts.app_assoc. reflexivity.
Qed.

(** A first record under a namespace is the only answer of a search there. *)
Lemma search_after_first_put (m : DictStore.t) (ns : namespace) (k : string)
  (v : pydict) (limit : Z) :
  (forall (ns' : namespace) (k' : string),
     take (length ns) ns' = ns -> m !! (ns', k') = None) ->
  0 < limit ->
  DictStore.search ns limit (DictStore.put ns k v m) =
  [mkItem k (Some (PyDict v)) (Some PyNone)].
Proof.
  intros Hnone Hlimit. unfold DictStore.search, DictStore.put.
  rewrite map_filter_insert_True by (unfold DictStore.under; cbn [fst]; apply take_ge; lia).
  assert (Hempty : filter (DictStore.under ns) m = ∅).
  { apply map_eq. intros [ns' k']. rewrite lookup_empty.
    apply map_lookup_filter_None. destruct (m !! (ns', k')) as [v'|] eqn:Hv; [right|left; reflexivity].
    intros v'' Hv'' Hunder. unfold DictStore.under in Hunder. cbn [fst] in Hunder.
    rewrite (Hnone ns' k' Hunder) in Hv. discriminate. }
  rewrite Hempty, insert_empty, map_to_list_singleton. cbn [map].
  destruct (Z.to_nat limit) as [|n] eqn:Hn; [lia|].
  destruct n; reflexivity.
Qed.

(** X6.  Reading back: when the user has no memory yet, the interpreter
    allows the four nested calls that printing a stored memory takes, and
    the importance is within the digits it prints, an upsert followed by a
    search with a positive limit returns exactly one line, whatever the
    query and whatever other users have stored: the key, then the stored
    mapping as Python prints it, with the five fields in their order and
    [None] for an importance that was not given, then [(score=None)]. *)
Theorem upsert_then_search_reads_back
  (Py : Interpreter) (w : World DictStore.t)
  content context importance tags memory_id user_id query limit :
  (forall (ns : namespace) (k : string),
     take 2 ns = ["memories"; user_id] -> store w !! (ns, k) = None) ->
  0 < limit ->
  (4 <= recursion_remaining)%nat ->
  (forall n, importance = Some n -> 0 < int_max_str_digits ->
             Z.abs n < 10 ^ int_max_str_digits) ->
  let w1 := fst (run (upsert_memory content context importance tags memory_id user_id) w) in
  snd (run (search_memories query limit user_id) w1) =
  Returned
    (UUID.str (effective_id memory_id w) +:+
     ": {'content': " +:+ Repr.str content +:+
     ", 'context': " +:+ Repr.str context +:+
     ", 'importance': " +:+ match importance with Some n => pretty n | None => "None" end +:+
     ", 'tags': [" +:+
     Text.join ", " (map Repr.str (match tags with Some l => l | None => [] end)) +:+
     "], 'timestamp': " +:+
     Repr.str (Datetime.isoformat (clock w (ticks w))) +:+ "} (score=None)").
Proof.
  intros Hnone Hlimit Hroom Himportance w1. subst w1.
  rewrite search_memories_outcome, upsert_memory_store.
  cbn [asearch aput DictStore.store fst snd].
  rewrite (search_after_first_put (store w) ["memories"; user_id] _ _ limit Hnone Hlimit).
  cbn [for_each]. unfold format_item, py_format.
  destruct recursion_remaining as [|[|[|[|fuel]]]]; try lia.
  cbn [key value score getattr Repr.format].
  rewrite (repr_memory_value _ _ _ _ _ _ _ Himportance).
  cbn [Repr.repr and_then Text.join]. f_equal.
  rewrite !TextFacts.app_assoc. reflexivity.
Qed.

Lemma sample_empty_no_records (ns : namespace) (k : string) :
  take 2 ns = ["memories"; "u1"] -> store Sample.empty !! (ns, k) = None.
Proof. intros _. apply lookup_empty. Qed.

Lemma upsert_then_search_reads_back_witness :
  snd (run (search_memories (Py := Sample.python) (Some "tea") 5 "u1")
         (fst (run (upsert_memory "likes tea" "said so" None (Some ["drink"])
                      (Some Sample.id) "u1") Sample.empty))) =
  Returned
    ("00000000-0000-0000-0000-0000000000ff: {'content': 'likes tea', " +:+
     "'context': 'said so', 'importance': None, 'tags': ['drink'], " +:+
     "'timestamp': '2024-01-02T03:04:05'} (score=None)").
Proof.
  rewrite (upsert_then_search_reads_back Sample.python Sample.empty
             "likes tea" "said so" None
             (Some ["drink"]) (Some Sample.id) "u1" (Some "tea") 5
             sample_empty_no_records ltac:(lia) ltac:(cbn; lia)
             ltac:(discriminate)).
  vm_compute. reflexivity.
Defined.

(** ** The shape of keys and timestamps *)

Module ShapeFacts.

Import TextFacts.

Lemma length_take (n : nat) (s : string) :
  (n <= String.length s)%nat -> String.length (Text.take n s) = n.
Proof.
  revert s. induction n as [|n IH]; intros [|c s] Hn; cbn in *; try lia.
  rewrite IH by lia. reflexivity.
Qed.

Lemma length_drop (n : nat) (s : string) :
  String.length (Text.drop n s) = (String.length s - n)%nat.
Proof.
  revert s. induction n as [|n IH]; intros [|c s]; cbn; try lia. apply IH.
Qed.

Lemma take_drop (n : nat) (s : string) : Text.take n s +:+ Text.drop n s = s.
Proof.
  revert s. induction n as [|n IH]; intros [|c s]; try reflexivity.
  cbn [Text.take Text.drop]. rewrite app_cons, IH. reflexivity.
Qed.

Lemma drop_drop (n m : nat) (s : string) :
  Text.drop n (Text.drop m s) = Text.drop (m + n) s.
Proof.
  revert s. induction m as [|m IH]; intros s; [reflexivity|].
  destruct s as [|c s]; cbn [Text.drop Nat.add].
  - destruct n; reflexivity.
  - apply IH.
Qed.

Lemma get_drop (n k : nat) (s : string) :
  String.get k (Text.drop n s) = String.get (n + k) s.
Proof.
  revert s. induction n as [|n IH]; intros s; [reflexivity|].
  destruct s as [|c s]; cbn [Text.drop Nat.add String.get].
  - destruct k; reflexivity.
  - apply IH.
Qed.

Lemma get_take (n k : nat) (s : string) :
  (k < n)%nat -> String.get k (Text.take n s) = String.get k s.
Proof.
  revert k s. induction n as [|n IH]; intros k s Hk; [lia|].
  destruct s as [|c s]; [reflexivity|]. cbn [Text.take].
  destruct k as [|k]; [reflexivity|]. cbn [String.get]. apply IH. lia.
Qed.

Lemma get_app_l (a b : string) (k : nat) :
  (k < String.length a)%nat -> String.get k (a +:+ b) = String.get k a.
Proof.
  revert k. induction a as [|c a IH]; intros k Hk; cbn in Hk; [lia|].
  rewrite app_cons. destruct k as [|k]; [reflexivity|]. cbn [String.get].
  apply IH. lia.
Qed.

Lemma get_app_r (a b : string) (k : nat) :
  String.get (String.length a + k) (a +:+ b) = String.get k b.
Proof.
  induction a as [|c a IH]; [reflexivity|].
  rewrite app_cons. cbn [String.length Nat.add String.get]. exact IH.
Qed.

(** Texts of one length in front of equal texts are equal. *)
Lemma app_inj_length (a a' b b' : string) :
  String.length a = String.length a' ->
  a +:+ b = a' +:+ b' -> a = a' /\ b = b'.
Proof.
  revert a'. induction a as [|c a IH]; intros [|c' a'] Hlen Heq;
    try discriminate Hlen.
  - split; [reflexivity|exact Heq].
  - rewrite !app_cons in Heq. injection Heq as -> Heq.
    cbn [String.length] in Hlen.
    destruct (IH a' ltac:(lia) Heq) as [-> ->]. split; reflexivity.
Qed.

(** The digit at place [k], counted from the left, of a fixed-width number. *)
Lemma get_fixed (b : Z) (w k : nat) (n : Z) :
  0 < b -> 0 <= n -> (k < w)%nat ->
  String.get k (Text.fixed b w n) =
  Some (Text.digit ((n / b ^ Z.of_nat (w - 1 - k)) mod b)).
Proof.
  intros Hb. revert k n. induction w as [|w IH]; intros k n Hn Hk; [lia|].
  cbn [Text.fixed].
  destruct (Nat.eq_dec k w) as [->|Hne].
  - replace w with (String.length (Text.fixed b w (n / b)) + 0)%nat at 1
      by (rewrite length_fixed; lia).
    rewrite get_app_r. replace (Datatypes.S w - 1 - w)%nat with 0%nat by lia.
    cbn [Z.of_nat]. rewrite Z.pow_0_r, Z.div_1_r. reflexivity.
  - rewrite get_app_l by (rewrite length_fixed; lia).
    rewrite IH by (try apply Z.div_pos; lia).
    replace (Datatypes.S w - 1 - k)%nat with (Datatypes.S (w - 1 - k)) by lia.
    rewrite Nat2Z.inj_succ, Z.pow_succ_r by lia.
    rewrite Z.div_div by (try apply Z.pow_pos_nonneg; lia).
    reflexivity.
Qed.

(** The five groups of [str(u)]. *)
Lemma str_groups (u : UUID.t) :
  let x := UUID.hex u in
  UUID.str u =
  Text.take 8 x +:+ "-" +:+ Text.take 4 (Text.drop 8 x) +:+ "-" +:+
  Text.take 4 (Text.drop 12 x) +:+ "-" +:+ Text.take 4 (Text.drop 16 x) +:+ "-" +:+
  Text.drop 20 x.
Proof. reflexivity. Qed.

Lemma length_hex (u : UUID.t) : String.length (UUID.hex u) = 32%nat.
Proof. apply length_fixed. Qed.

Lemma length_group (u : UUID.t) (i n : nat) :
  (i + n <= 32)%nat -> String.length (Text.take n (Text.drop i (UUID.hex u))) = n.
Proof.
  intros Hin. apply length_take. rewrite length_drop, length_hex. lia.
Qed.

Lemma hex_regroup (u : UUID.t) :
  let x := UUID.hex u in
  x = Text.take 8 x +:+ Text.take 4 (Text.drop 8 x) +:+
      Text.take 4 (Text.drop 12 x) +:+ Text.take 4 (Text.drop 16 x) +:+ Text.drop 20 x.
Proof.
  intros x.
  assert (Hstep : forall i, Text.take 4 (Text.drop i x) +:+ Text.drop (i + 4) x
                            = Text.drop i x).
  { intros i. rewrite <- (drop_drop 4 i x). apply take_drop. }
  pose proof (Hstep 16%nat) as H16. pose proof (Hstep 12%nat) as H12.
  pose proof (Hstep 8%nat) as H8. cbn [Nat.add] in H16, H12, H8.
  rewrite H16, H12, H8, take_drop. reflexivity.
Qed.

Lemma hex_inj (u v : UUID.t) :
  UUID.wf u -> UUID.wf v -> UUID.hex u = UUID.hex v -> u = v.
Proof.
  intros Hu Hv Heq.
  pose proof (compare_fixed 16 32 (UUID.int u) (UUID.int v) ltac:(lia) Hu Hv) as Hc.
  unfold UUID.hex, Text.hex in Heq. rewrite Heq, compare_refl in Hc.
  symmetry in Hc. apply Z.compare_eq_iff in Hc.
  destruct u, v. cbn in Hc. congruence.
Qed.

(** [str] tells well-formed identifiers apart. *)
Lemma str_inj (u v : UUID.t) :
  UUID.wf u -> UUID.wf v -> UUID.str u = UUID.str v -> u = v.
Proof.
  intros Hu Hv Heq. apply hex_inj; [exact Hu|exact Hv|].
  rewrite (hex_regroup u), (hex_regroup v). cbv zeta.
  rewrite (str_groups u), (str_groups v) in Heq. cbv zeta in Heq.
  apply app_inj_length in Heq as [-> Heq];
    [|rewrite !length_take by (rewrite length_hex; lia); reflexivity].
  apply (app_inj_length "-" "-") in Heq as [_ Heq]; [|reflexivity].
  apply app_inj_length in Heq as [-> Heq]; [|rewrite !length_group by lia; reflexivity].
  apply (app_inj_length "-" "-") in Heq as [_ Heq]; [|reflexivity].
  apply app_inj_length in Heq as [-> Heq]; [|rewrite !length_group by lia; reflexivity].
  apply (app_inj_length "-" "-") in Heq as [_ Heq]; [|reflexivity].
  apply app_inj_length in Heq as [-> Heq]; [|rewrite !length_group by lia; reflexivity].
  apply (app_inj_length "-" "-") in Heq as [_ ->]; [|reflexivity].
  reflexivity.
Qed.

Lemma chars_app (a b : string) :
  list_ascii_of_string (a +:+ b) =
  (list_ascii_of_string a ++ list_ascii_of_string b)%list.
Proof.
  induction a as [|c a IH]; [reflexivity|].
  rewrite app_cons. cbn [list_ascii_of_string]. rewrite IH. reflexivity.
Qed.

(** Whatever its argument, [Text.digit] is one of the sixteen digits. *)
Lemma digit_hex (d : Z) :
  In (Text.digit d) (list_ascii_of_string "0123456789abcdef").
Proof.
  unfold Text.digit.
  repeat match goal with
         | |- context [match ?x with _ => _ end] => destruct x
         end; cbn; tauto.
Qed.

Lemma fixed_digits (b : Z) (w : nat) (n : Z) :
  Forall (fun c => In c (list_ascii_of_string "0123456789abcdef"))
         (list_ascii_of_string (Text.fixed b w n)).
Proof.
  revert n. induction w as [|w IH]; intros n; [constructor|].
  cbn [Text.fixed]. rewrite chars_app. apply Forall_app. split; [apply IH|].
  constructor; [apply digit_hex|constructor].
Qed.

(** The characters of thirty-two digits set in groups of 8, 4, 4, 4 and 12. *)
Lemma groups_shape (P : ascii -> Prop) (x : string) :
  String.length x = 32%nat ->
  Forall P (list_ascii_of_string x) ->
  let s := Text.take 8 x +:+ "-" +:+ Text.take 4 (Text.drop 8 x) +:+ "-" +:+
           Text.take 4 (Text.drop 12 x) +:+ "-" +:+
           Text.take 4 (Text.drop 16 x) +:+ "-" +:+ Text.drop 20 x in
  String.length s = 36%nat /\
  String.get 14 s = String.get 12 x /\
  String.get 19 s = String.get 16 x /\
  forall (k : nat) (c : ascii), String.get k s = Some c ->
    ((k = 8 \/ k = 13 \/ k = 18 \/ k = 23)%nat -> c = "-"%char) /\
    ((k <> 8 /\ k <> 13 /\ k <> 18 /\ k <> 23)%nat -> P c).
Proof.
  intros Hlen Hall.
  do 32 (destruct x as [|? x]; [discriminate Hlen|]).
  destruct x; [|discriminate Hlen]. clear Hlen.
  cbn [list_ascii_of_string] in Hall.
  repeat match goal with
         | H : Forall _ (_ :: _) |- _ => apply Forall_cons in H as [? H]
         end.
  clear Hall. cbn.
  split; [reflexivity|]. split; [reflexivity|]. split; [reflexivity|].
  intros k c.
  do 36 (destruct k as [|k];
         [intros [= <-]; split;
          [intros Hk; first [reflexivity | exfalso; lia]
          |intros Hk; first [assumption | exfalso; lia]]|]).
  discriminate.
Qed.

(** The thirteenth digit of the hex text is the version. *)
Lemma get_hex_version (u : UUID.t) :
  UUID.wf u -> String.get 12 (UUID.hex u) = Some (Text.digit (UUID.version u)).
Proof.
  intros [Hlo _]. unfold UUID.hex, Text.hex, UUID.version.
  rewrite get_fixed by lia. do 2 f_equal.
  change 0xf with (Z.ones 4). rewrite Z.land_ones, Z.shiftr_div_pow2 by lia.
  reflexivity.
Qed.

(** The seventeenth digit carries the two variant bits on top. *)
Lemma get_hex_variant (u : UUID.t) :
  UUID.wf u -> UUID.variant_bits u = 2 ->
  exists c, String.get 16 (UUID.hex u) = Some c /\
            In c (list_ascii_of_string "89ab").
Proof.
  intros [Hlo _]. unfold UUID.hex, Text.hex, UUID.variant_bits.
  change 0x3 with (Z.ones 2). rewrite Z.land_ones, Z.shiftr_div_pow2 by lia.
  intros Hvar. rewrite get_fixed by lia. eexists. split; [reflexivity|].
  change (16 ^ Z.of_nat (32 - 1 - 16)) with (2 ^ 60).
  change (2 ^ 62) with (2 ^ 60 * 4) in Hvar. change (2 ^ 2) with 4 in Hvar.
  rewrite <- Z.div_div in Hvar by lia.
  set (m := UUID.int u / 2 ^ 60) in *.
  pose proof (Z.div_mod m 16 ltac:(lia)). pose proof (Z.mod_pos_bound m 16 ltac:(lia)).
  pose proof (Z.div_mod m 4 ltac:(lia)). pose proof (Z.mod_pos_bound m 4 ltac:(lia)).
  pose proof (Z.div_mod (m / 4) 4 ltac:(lia)).
  assert (Hd : m mod 16 = 8 \/ m mod 16 = 9 \/ m mod 16 = 10 \/ m mod 16 = 11) by lia.
  destruct Hd as [-> | [-> | [-> | ->]]]; cbn; tauto.
Qed.

Lemma datetime_compare_eq (a b : Datetime.t) :
  Datetime.compare a b = Eq -> a = b.
Proof.
  destruct a as [y m d h mi s us], b as [y' m' d' h' mi' s' us'].
  unfold Datetime.compare, Datetime.lex.
  cbn [Datetime.year Datetime.month Datetime.day Datetime.hour Datetime.minute
       Datetime.second Datetime.microsecond].
  destruct (Z.compare_spec y y'); try discriminate.
  destruct (Z.compare_spec m m'); try discriminate.
  destruct (Z.compare_spec d d'); try discriminate.
  destruct (Z.compare_spec h h'); try discriminate.
  destruct (Z.compare_spec mi mi'); try discriminate.
  destruct (Z.compare_spec s s'); try discriminate.
  destruct (Z.compare_spec us us'); try discriminate.
  intros _. congruence.
Qed.

(** Counting a character distributes over appending. *)
Lemma count_app (c : ascii) (a b : string) :
  Text.count c (a +:+ b) = (Text.count c a + Text.count c b)%nat.
Proof.
  induction a as [|x a IH]; [reflexivity|].
  rewrite app_cons. cbn [Text.count]. rewrite IH. lia.
Qed.

End ShapeFacts.

(** X7.  The key of a memory is the canonical text of its identifier:
    thirty-six characters, hyphens at places 8, 13, 18 and 23 and lower-case
    hexadecimal digits everywhere else.  When [upsert_memory] generated the
    identifier, the digit at place 14 is the version, 4, and the digit at
    place 19 is one of 8, 9, a, b, the RFC 4122 variant. *)
Theorem upsert_memory_key_shape
  (S : Type) (St : BaseStore S) (w : World S)
  content context importance tags memory_id user_id :
  (forall i, memory_id = Some i -> UUID.wf i) ->
  exists key v,
    log (fst (run (upsert_memory content context importance tags memory_id user_id) w)) =
      (log w ++ [ReqPut ["memories"; user_id] key v])%list /\
    String.length key = 36%nat /\
    (forall (k : nat) (c : ascii), String.get k key = Some c ->
       ((k = 8 \/ k = 13 \/ k = 18 \/ k = 23)%nat -> c = "-"%char) /\
       ((k <> 8 /\ k <> 13 /\ k <> 18 /\ k <> 23)%nat ->
        In c (list_ascii_of_string "0123456789abcdef"))) /\
    (memory_id = None ->
     String.get 14 key = Some "4"%char /\
     exists c, String.get 19 key = Some c /\ In c (list_ascii_of_string "89ab")).
Proof.
  intros Hid. eexists. eexists. rewrite upsert_memory_log.
  split; [reflexivity|].
  assert (Hwf : UUID.wf (effective_id memory_id w)).
  { destruct memory_id as [i|]; [apply Hid; reflexivity|apply fresh_uuid_wf]. }
  assert (Hgen : memory_id = None ->
                 UUID.version (effective_id memory_id w) = 4 /\
                 UUID.variant_bits (effective_id memory_id w) = 2).
  { intros ->. split; [apply fresh_uuid_version|apply fresh_uuid_variant]. }
  generalize dependent (effective_id memory_id w). intros u Hwf Hgen.
  pose proof (ShapeFacts.groups_shape
                (fun c => In c (list_ascii_of_string "0123456789abcdef"))
                (UUID.hex u) (ShapeFacts.length_hex u)
                (ShapeFacts.fixed_digits 16 32 (UUID.int u))) as Hshape.
  cbv zeta in Hshape. rewrite <- (ShapeFacts.str_groups u) in Hshape.
  destruct Hshape as (Hlen & H14 & H19 & Hall).
  split; [exact Hlen|]. split; [exact Hall|].
  intros Hnone. destruct (Hgen Hnone) as [Hver Hvar].
  rewrite H14, H19, (ShapeFacts.get_hex_version u Hwf), Hver.
  split; [reflexivity|]. exact (ShapeFacts.get_hex_variant u Hwf Hvar).
Qed.

Lemma sample_id_wf (i : UUID.t) : Some Sample.id = Some i -> UUID.wf i.
Proof. intros [= <-]. unfold UUID.wf, Sample.id. cbn [UUID.int]. lia. Qed.

Lemma upsert_memory_key_shape_witness :
  exists key v,
    log (fst (run (upsert_memory "likes tea" "said so" None None (Some Sample.id) "u1")
                Sample.empty)) = [ReqPut ["memories"; "u1"] key v] /\
    String.length key = 36%nat.
Proof.
  destruct (upsert_memory_key_shape _ _ Sample.empty "likes tea" "said so" None None
              (Some Sample.id) "u1" sample_id_wf) as (key & v & Hlog & Hlen & _).
  exists key, v. split; [exact Hlog|exact Hlen].
Defined.

(** X8.  Different identifiers have different keys, so an update never
    touches another memory: on the reference store an upsert under [i] leaves
    the record of every other identifier [j] of the same user as it was. *)
Theorem upsert_memory_keeps_other_memories
  (w : World DictStore.t) content context importance tags (i j : UUID.t) user_id :
  UUID.wf i -> UUID.wf j -> i <> j ->
  let w' := fst (run (upsert_memory content context importance tags (Some i) user_id) w) in
  UUID.str i <> UUID.str j /\
  store w' !! (["memories"; user_id], UUID.str j) =
  store w !! (["memories"; user_id], UUID.str j).
Proof.
  intros Hi Hj Hne w'. subst w'.
  assert (Hkeys : UUID.str i <> UUID.str j).
  { intros Heq. apply Hne. exact (ShapeFacts.str_inj i j Hi Hj Heq). }
  split; [exact Hkeys|].
  rewrite upsert_memory_store. cbn [effective_id aput DictStore.store fst].
  apply DictStoreFacts.lookup_put_ne. congruence.
Qed.

Lemma sample_lookup_id :
  store Sample.populated !! (["memories"; "u1"], UUID.str Sample.id) =
  Some (memory_value "old" "ctx" (Some 3) (Some ["t"]) "2023-12-31T23:59:59").
Proof. vm_compute. reflexivity. Qed.

Lemma upsert_memory_keeps_other_memories_witness :
  store (fst (run (upsert_memory "likes tea" "said so" None None (Some (UUID.mk 256)) "u1")
                Sample.populated))
    !! (["memories"; "u1"], UUID.str Sample.id) =
  Some (memory_value "old" "ctx" (Some 3) (Some ["t"]) "2023-12-31T23:59:59").
Proof.
  destruct (upsert_memory_keeps_other_memories Sample.populated
              "likes tea" "said so" None None (UUID.mk 256) Sample.id "u1")
    as [_ Hkept].
  - unfold UUID.wf. cbn [UUID.int]. lia.
  - unfold UUID.wf, Sample.id. cbn [UUID.int]. lia.
  - unfold Sample.id. intros [= Heq].
  - rewrite Hkept. exact sample_lookup_id.
Defined.

(** The decimal digit of a remainder modulo ten. *)
Lemma digit_mod_10 (n : Z) :
  In (Text.digit (n mod 10)) (list_ascii_of_string "0123456789").
Proof.
  pose proof (Z.mod_pos_bound n 10 ltac:(lia)) as Hr.
  assert (Hd : n mod 10 = 0 \/ n mod 10 = 1 \/ n mod 10 = 2 \/ n mod 10 = 3 \/
               n mod 10 = 4 \/ n mod 10 = 5 \/ n mod 10 = 6 \/ n mod 10 = 7 \/
               n mod 10 = 8 \/ n mod 10 = 9) by lia.
  repeat destruct Hd as [-> | Hd]; try rewrite Hd; cbn; tauto.
Qed.

(** X9.  The timestamp [upsert_memory] writes has the fixed layout
    [YYYY-MM-DDTHH:MM:SS]: nineteen characters, or twenty-six with the
    fraction [.ffffff] that is printed exactly when the microseconds of the
    clock reading are not zero; every character outside the separators is a
    decimal digit. *)
Theorem upsert_memory_timestamp_shape
  (S : Type) (St : BaseStore S) (w : World S)
  content context importance tags memory_id user_id :
  Datetime.valid (clock w (ticks w)) ->
  exists key ts,
    log (fst (run (upsert_memory content context importance tags memory_id user_id) w)) =
      (log w ++ [ReqPut ["memories"; user_id] key
                   (memory_value content context importance tags ts)])%list /\
    String.length ts =
      (if Datetime.microsecond (clock w (ticks w)) =? 0 then 19%nat else 26%nat) /\
    String.get 4 ts = Some "-"%char /\ String.get 7 ts = Some "-"%char /\
    String.get 10 ts = Some "T"%char /\
    String.get 13 ts = Some ":"%char /\ String.get 16 ts = Some ":"%char /\
    (Datetime.microsecond (clock w (ticks w)) <> 0 ->
     String.get 19 ts = Some "."%char) /\
    (forall (k : nat) (c : ascii), String.get k ts = Some c ->
       (k <> 4 /\ k <> 7 /\ k <> 10 /\ k <> 13 /\ k <> 16 /\ k <> 19)%nat ->
       In c (list_ascii_of_string "0123456789")).
Proof.
  intros _. eexists. eexists. rewrite upsert_memory_log.
  split; [reflexivity|].
  destruct (clock w (ticks w)) as [y m d hh mm ss us].
  unfold Datetime.isoformat, Datetime.format_time, Text.dec, Text.of_char.
  cbn [Datetime.year Datetime.month Datetime.day Datetime.hour Datetime.minute
       Datetime.second Datetime.microsecond Text.fixed String.append].
  destruct (Z.eqb_spec us 0) as [Hus|Hus];
    cbn [String.append String.length String.get];
    (repeat (split; [first [reflexivity | intros; congruence]|]));
    intros k c.
  - do 19 (destruct k as [|k];
           [intros [= <-] Hk; first [apply digit_mod_10 | exfalso; lia]|]).
    discriminate.
  - do 26 (destruct k as [|k];
           [intros [= <-] Hk; first [apply digit_mod_10 | exfalso; lia]|]).
    discriminate.
Qed.

Lemma upsert_memory_timestamp_shape_witness :
  exists key ts,
    log (fst (run (upsert_memory "likes tea" "said so" None None None "u1")
                Sample.empty)) =
      [ReqPut ["memories"; "u1"] key (memory_value "likes tea" "said so" None None ts)] /\
    String.length ts = 19%nat.
Proof.
  destruct (upsert_memory_timestamp_shape _ _ Sample.empty "likes tea" "said so"
              None None None "u1" (sample_clock_valid 0 ltac:(lia)))
    as (key & ts & Hlog & Hlen & _).
  exists key, ts. split; [exact Hlog|exact Hlen].
Defined.

(** X10.  Timestamps sort like instants.  For any two upserts, the texts
    they write as timestamps compare, character by character, exactly as the
    two clock readings compare, and the texts are equal only when the
    readings are: ordering memories by the stored text orders them by time
    of writing. *)
Theorem upsert_memory_timestamps_sort_by_time
  (S : Type) (St : BaseStore S) (wa wb : World S)
  ca xa ia ta ma ua cb xb ib tb mb ub :
  let a := clock wa (ticks wa) in
  let b := clock wb (ticks wb) in
  Datetime.valid a -> Datetime.valid b ->
  exists ka kb tsa tsb,
    log (fst (run (upsert_memory ca xa ia ta ma ua) wa)) =
      (log wa ++ [ReqPut ["memories"; ua] ka (memory_value ca xa ia ta tsa)])%list /\
    log (fst (run (upsert_memory cb xb ib tb mb ub) wb)) =
      (log wb ++ [ReqPut ["memories"; ub] kb (memory_value cb xb ib tb tsb)])%list /\
    String.compare tsa tsb = Datetime.compare a b /\
    (tsa = tsb <-> a = b).
Proof.
  intros a b Ha Hb. do 4 eexists. rewrite !upsert_memory_log.
  split; [reflexivity|]. split; [reflexivity|]. fold a b.
  pose proof (DatetimeFacts.compare_isoformat a b Ha Hb) as Hc.
  split; [exact Hc|]. split.
  - intros Heq. rewrite Heq, TextFacts.compare_refl in Hc.
    apply ShapeFacts.datetime_compare_eq. symmetry. exact Hc.
  - intros ->. reflexivity.
Qed.

Lemma upsert_memory_timestamps_sort_by_time_witness :
  exists ka kb tsa tsb,
    log (fst (run (upsert_memory "likes tea" "said so" None None None "u1")
                Sample.empty)) =
      [ReqPut ["memories"; "u1"] ka (memory_value "likes tea" "said so" None None tsa)] /\
    log (fst (run (upsert_memory "likes coffee" "later" None None None "u2")
                (mkWorld Sample.bytes 16 Sample.clock 1 (∅ : DictStore.t) []))) =
      [ReqPut ["memories"; "u2"] kb (memory_value "likes coffee" "later" None None tsb)] /\
    String.compare tsa tsb = Lt.
Proof.
  destruct (upsert_memory_timestamps_sort_by_time _ _ Sample.empty
              (mkWorld Sample.bytes 16 Sample.clock 1 (∅ : DictStore.t) [])
              "likes tea" "said so" None None None "u1"
              "likes coffee" "later" None None None "u2"
              (sample_clock_valid 0 ltac:(lia)) (sample_clock_valid 1 ltac:(lia)))
    as (ka & kb & tsa & tsb & Hla & Hlb & Hc & _).
  exists ka, kb, tsa, tsb. split; [exact Hla|]. split; [exact Hlb|].
  rewrite Hc. reflexivity.
Defined.

(** Every rendered line has an opening parenthesis. *)
Lemma count_format_item (Py : Interpreter) (r : Item) (line : string) :
  format_item r = inr line -> (1 <= Text.count "(" line)%nat.
Proof.
  intros Hline. apply format_item_inr in Hline as (v & s & _ & _ & ->).
  rewrite !ShapeFacts.count_app.
  change (Text.count "(" " (score=") with 1%nat. lia.
Qed.

Lemma count_join (sep : string) (p : string) (rest : list string) :
  (Text.count "(" p <= Text.count "(" (Text.join sep (p :: rest)))%nat.
Proof.
  destruct rest as [|q rest]; cbn [Text.join]; [lia|].
  rewrite ShapeFacts.count_app. lia.
Qed.

(** X11.  The text "No memories found" is never the rendering of results:
    [search_memories] returns it exactly when the store's search came back
    with no result at all, whatever keys and values the results carry. *)
Theorem search_memories_not_found_iff
  (S : Type) (St : BaseStore S) (Py : Interpreter) (w : World S) query limit user_id :
  snd (run (search_memories query limit user_id) w) = Returned "No memories found" <->
  snd (asearch ["memories"; user_id] (or_else query "") limit (store w)) = inr [].
Proof.
  rewrite search_memories_outcome.
  destruct (snd (asearch _ _ _ _)) as [e|rs]; [split; discriminate|].
  destruct (for_each format_item rs) as [e|lines] eqn:Hlines.
  { split; [discriminate|]. intros [= ->]. discriminate Hlines. }
  apply for_each_inr in Hlines.
  destruct Hlines as [|r line rs lines Hline Hrest]; [split; reflexivity|].
  split; [|discriminate]. intros [= Heq]. exfalso.
  pose proof (count_join newline line lines) as Hj.
  pose proof (count_format_item Py r line Hline) as Hr.
  assert (Hle : (1 <= Text.count "(" "No memories found")%nat)
    by (rewrite <- Heq; exact (Nat.le_trans _ _ _ Hr Hj)).
  cbn in Hle. lia.
Qed.

(** X12.  Create, then update.  When a first upsert without [memory_id]
    created a record, a second upsert that passes the identifier of the
    confirmation back as [memory_id] returns the same confirmation, takes no
    further entropy, and leaves one record more than before the first call:
    the created one, now holding the second value with the second clock
    reading as timestamp. *)
Theorem upsert_memory_create_then_update
  (w : World DictStore.t) c1 x1 i1 t1 c2 x2 i2 t2 user_id :
  let new_id := fresh_uuid w in
  let slot := (["memories"; user_id], UUID.str new_id) in
  let r1 := run (upsert_memory c1 x1 i1 t1 None user_id) w in
  let r2 := run (upsert_memory c2 x2 i2 t2 (Some new_id) user_id) (fst r1) in
  store w !! slot = None ->
  snd r1 = Returned ("Stored memory " +:+ UUID.str new_id) /\
  snd r2 = snd r1 /\
  drawn (fst r2) = (drawn w + 16)%nat /\
  size (store (fst r2)) = Datatypes.S (size (store w)) /\
  store (fst r2) !! slot =
    Some (memory_value c2 x2 i2 t2
            (Datetime.isoformat (clock w (Datatypes.S (ticks w))))) /\
  (forall other v, store w !! other = Some v -> store (fst r2) !! other = Some v).
Proof.
  intros new_id slot r1 r2 Hfree. subst r2 r1.
  pose proof (upsert_memory_counters c1 x1 i1 t1 None user_id w)
    as (Hdrawn & Hticks & _ & Hclock).
  pose proof (upsert_memory_counters c2 x2 i2 t2 (Some new_id) user_id
                (fst (run (upsert_memory c1 x1 i1 t1 None user_id) w)))
    as (Hdrawn2 & _).
  cbv zeta in Hdrawn, Hticks, Hclock, Hdrawn2.
  rewrite !upsert_memory_outcome, Hdrawn2, Hdrawn, !upsert_memory_store, Hticks, Hclock.
  cbn [effective_id aput DictStore.store fst snd id_bytes]. fold new_id. fold slot.
  split; [reflexivity|]. split; [reflexivity|]. split; [lia|].
  unfold DictStore.put. fold slot. rewrite insert_insert_eq.
  split; [apply map_size_insert_None, Hfree|].
  split; [apply lookup_insert_eq|].
  intros other v Hother. rewrite lookup_insert_ne; [exact Hother|].
  intros Heq. subst other. rewrite Hfree in Hother. discriminate.
Qed.

Lemma upsert_memory_create_then_update_witness :
  size (store (fst (run (upsert_memory "likes coffee" "corrected" (Some 2) None
                           (Some (fresh_uuid Sample.populated)) "u1")
                      (fst (run (upsert_memory "likes tea" "said so" None None None "u1")
                              Sample.populated))))) = 3%nat.
Proof.
  destruct (upsert_memory_create_then_update Sample.populated
              "likes tea" "said so" None None "likes coffee" "corrected" (Some 2) None
              "u1" sample_fresh_slot_free)
    as (_ & _ & _ & Hsize & _).
  rewrite Hsize. vm_compute. reflexivity.
Defined.

(** ** Lines of the search summary *)

Module LineFacts.

Import TextFacts ShapeFacts.

Lemma count_newline_char (c : ascii) :
  c <> "010"%char -> Text.count "010" (Text.of_char c) = 0%nat.
Proof.
  intros Hc. cbn [Text.of_char Text.count].
  destruct (Ascii.eqb_spec c "010"); [contradiction|reflexivity].
Qed.

Lemma digit_not_newline (d : Z) : Text.digit d <> "010"%char.
Proof.
  pose proof (digit_hex d) as Hin. intros Heq. rewrite Heq in Hin.
  cbn in Hin. intuition discriminate.
Qed.

Lemma count_newline_fixed (b : Z) (w : nat) (n : Z) :
  Text.count "010" (Text.fixed b w n) = 0%nat.
Proof.
  revert n. induction w as [|w IH]; intros n; [reflexivity|].
  cbn [Text.fixed]. rewrite count_app, IH, count_newline_char; [reflexivity|].
  apply digit_not_newline.
Qed.

Lemma count_newline_digits (ds : list Z) :
  Text.count "010" (Repr.digits_text ds) = 0%nat.
Proof.
  induction ds as [|d ds IH]; [reflexivity|].
  cbn [Repr.digits_text fold_right Text.count].
  fold (Repr.digits_text ds). rewrite IH.
  destruct (Ascii.eqb_spec (Text.digit d) "010") as [Heq|_]; [|reflexivity].
  destruct (digit_not_newline d Heq).
Qed.

Lemma count_newline_repeat (n : nat) :
  Text.count "010" (Text.repeat "0" n) = 0%nat.
Proof. induction n as [|n IH]; [reflexivity|]. cbn [Text.repeat Text.count]. rewrite IH. reflexivity. Qed.

Lemma count_newline_pretty_go (x : N) (s : string) :
  Text.count "010" (pretty_N_go x s) = Text.count "010" s.
Proof.
  revert s. induction (N.lt_wf_0 x) as [x _ IH]. intros s.
  destruct (decide (x = 0)%N) as [->|Hx]; [rewrite pretty_N_go_0; reflexivity|].
  rewrite pretty_N_go_step by lia. rewrite IH by (apply N.div_lt; lia).
  cbn [Text.count].
  replace (Ascii.eqb (pretty_N_char (x `mod` 10)) "010") with false; [reflexivity|].
  unfold pretty_N_char.
  repeat match goal with
         | |- context [match ?y with _ => _ end] => destruct y
         end; reflexivity.
Qed.

Lemma count_newline_pretty (n : Z) : Text.count "010" (pretty n) = 0%nat.
Proof.
  assert (Hpos : forall p, Text.count "010" (pretty (N.pos p)) = 0%nat).
  { intros p. unfold pretty, pretty_N. destruct (decide _); [reflexivity|].
    apply count_newline_pretty_go. }
  destruct n as [|p|p]; [reflexivity|apply Hpos|].
  change (pretty (Z.neg p)) with ("-" +:+ pretty (N.pos p)).
  rewrite count_app, Hpos. reflexivity.
Qed.

Lemma count_newline_float (x : pyfloat) : Text.count "010" (Repr.float x) = 0%nat.
Proof.
  destruct x as [|neg|neg ds decpt]; [reflexivity|destruct neg; reflexivity|].
  unfold Repr.float, Repr.exponent.
  repeat match goal with
         | |- context [if ?c then _ else _] => destruct c
         end;
    rewrite ?count_app, ?count_newline_digits, ?count_newline_repeat,
      ?count_newline_pretty; reflexivity.
Qed.

Lemma eqb_newline (b : ascii) :
  Text.code b <> 10 -> Ascii.eqb b "010" = false.
Proof.
  intros Hb. destruct (Ascii.eqb_spec b "010") as [->|_]; [|reflexivity].
  destruct Hb. reflexivity.
Qed.

(** No byte of a code point other than the line feed is a line feed. *)
Lemma chars_newline (s : string) :
  Forall (fun cb => fst cb <> 10 -> Text.count "010" (snd cb) = 0%nat)
         (Unicode.chars s).
Proof.
  assert (Hlen : forall (n : nat) (t : string),
             (String.length t <= n)%nat ->
             Forall (fun cb => fst cb <> 10 -> Text.count "010" (snd cb) = 0%nat)
                    (Unicode.chars t)).
  { induction n as [|n IH]; intros t Ht.
    { destruct t; [constructor|cbn in Ht; lia]. }
    destruct t as [|b0 t0]; [constructor|].
    cbn [Unicode.chars]. cbv zeta.
    repeat match goal with
           | |- context [if ?c then _ else _] => destruct c eqn:?
           | |- context [match ?x with "" => _ | String _ _ => _ end] => destruct x
           end;
      (constructor;
       [ cbn [fst snd Text.of_char Text.count]; intros Hne;
         repeat match goal with
                | H : (_ <? _) = false |- _ => apply Z.ltb_ge in H
                | H : (_ <? _) = true |- _ => apply Z.ltb_lt in H
                | H : negb _ = false |- _ => apply negb_false_iff in H
                | H : (_ || _) = false |- _ => apply orb_false_iff in H as [? ?]
                | H : Unicode.continuation _ = true |- _ =>
                    unfold Unicode.continuation in H;
                    apply andb_true_iff in H as [? ?]
                | H : (_ <=? _) = true |- _ => apply Z.leb_le in H
                end;
         rewrite ?eqb_newline by lia; reflexivity
       | apply IH; cbn [String.length] in Ht |- *; lia ]). }
  exact (Hlen (String.length s) s (le_n _)).
Qed.

Lemma count_newline_escape (q : ascii) (c : Z) (bytes : string) :
  q <> "010"%char ->
  (c <> 10 -> Text.count "010" bytes = 0%nat) ->
  Text.count "010" (Repr.escape q c bytes) = 0%nat.
Proof.
  intros Hq Hbytes. unfold Repr.escape.
  assert (Hcode : Text.code q <> 10).
  { intros Heq. apply Hq. destruct (Ascii.eqb_spec q "010") as [|Hne]; [assumption|].
    exfalso. revert Heq Hne. clear.
    destruct q as [[] [] [] [] [] [] [] []]; vm_compute; congruence. }
  destruct (Z.eqb_spec c (Text.code q)) as [->|_]; cbn [orb].
  { cbn [Text.count]. rewrite Hbytes by exact Hcode. reflexivity. }
  destruct (Z.eqb_spec c (Text.code "\")) as [->|_].
  { cbn [Text.count]. rewrite Hbytes by (vm_compute; discriminate). reflexivity. }
  destruct (Z.eqb_spec c 9) as [_|_]; [reflexivity|].
  destruct (Z.eqb_spec c 10) as [_|Hc]; [reflexivity|].
  destruct (Z.eqb_spec c 13) as [_|_]; [reflexivity|].
  repeat match goal with
         | |- context [if ?b then _ else _] => destruct b
         end;
    rewrite ?count_app; unfold Text.hex; rewrite ?count_newline_fixed;
    try reflexivity; apply Hbytes, Hc.
Qed.

Lemma count_newline_str (s : string) : Text.count "010" (Repr.str s) = 0%nat.
Proof.
  unfold Repr.str.
  assert (Hq : Repr.str_quote s <> "010"%char).
  { unfold Repr.str_quote. destruct (_ && _); discriminate. }
  generalize dependent (Repr.str_quote s). intros q Hq.
  rewrite app_cons. cbn [Text.count]. rewrite count_app, (count_newline_char q Hq).
  destruct (Ascii.eqb_spec q "010"); [contradiction|].
  assert (Hbody : Text.count "010" (Repr.escape_all q (Unicode.chars s)) = 0%nat).
  { pose proof (chars_newline s) as Hall.
    induction Hall as [|[c bytes] cs Hc _ IH]; [reflexivity|].
    cbn [Repr.escape_all]. rewrite count_app, IH, count_newline_escape; auto. }
  rewrite Hbody. reflexivity.
Qed.

(** Joined texts have the separators between them and nothing else new. *)
Lemma count_join_sep (c : ascii) (sep : string) (parts : list string) :
  Forall (fun p => Text.count c p = 0%nat) parts ->
  Text.count c (Text.join sep parts) = ((length parts - 1) * Text.count c sep)%nat.
Proof.
  induction 1 as [|p rest Hp Hrest IH]; [reflexivity|].
  destruct rest as [|q rest]; [cbn; lia|].
  change (Text.join sep (p :: q :: rest)) with (p +:+ sep +:+ Text.join sep (q :: rest)).
  rewrite !count_app, IH, Hp. cbn [length]. lia.
Qed.

(** [repr] spells every line feed: its text has no line break. *)
Lemma count_newline_repr (max_digits : Z) (fuel : nat) (v : pyval) (text : string) :
  Repr.repr max_digits fuel v = inr text -> Text.count "010" text = 0%nat.
Proof.
  revert v text. induction fuel as [|fuel IH]; intros v text; [discriminate|].
  destruct v as [|n|x|s|items|entries].
  - intros [= <-]. reflexivity.
  - cbn [Repr.repr]. unfold Repr.int. destruct (_ && _); [discriminate|].
    intros [= <-]. apply count_newline_pretty.
  - intros [= <-]. apply count_newline_float.
  - intros [= <-]. apply count_newline_str.
  - rewrite repr_list. unfold and_then.
    destruct (for_each _ items) as [e|texts] eqn:Hitems; [discriminate|].
    intros [= <-]. apply for_each_inr in Hitems.
    rewrite !count_app, count_join_sep.
    + cbn. lia.
    + induction Hitems as [|x t items texts Hx _ IHitems]; constructor;
        [exact (IH _ _ Hx)|exact IHitems].
  - rewrite repr_dict. unfold and_then at 1.
    destruct (for_each _ entries) as [e|texts] eqn:Hentries; [discriminate|].
    intros [= <-]. apply for_each_inr in Hentries.
    rewrite !count_app, count_join_sep.
    + cbn. lia.
    + induction Hentries as [|[k x] t entries texts Hkx _ IHentries]; constructor;
        [|exact IHentries].
      cbn [fst snd] in Hkx. unfold and_then in Hkx.
      destruct (Repr.repr max_digits fuel (PyStr k)) as [e|kt] eqn:Hk; [discriminate|].
      destruct (Repr.repr max_digits fuel x) as [e|xt] eqn:Hx; [discriminate|].
      injection Hkx as <-.
      rewrite !count_app, (IH _ _ Hk), (IH _ _ Hx). reflexivity.
Qed.

Lemma count_newline_format (max_digits : Z) (fuel : nat) (v : pyval) (text : string) :
  (forall s, v = PyStr s -> Text.count "010" s = 0%nat) ->
  Repr.format max_digits fuel v = inr text -> Text.count "010" text = 0%nat.
Proof.
  intros Hstr. unfold Repr.format.
  destruct v as [|n|x|s|items|entries];
    try (destruct fuel as [|[|fuel]]; try discriminate; apply count_newline_repr).
  - destruct fuel; [discriminate|].
    apply (count_newline_repr max_digits 1 (PyInt n)).
  - intros [= <-]. apply Hstr. reflexivity.
Qed.

Lemma count_newline_format_item (Py : Interpreter) (r : Item) (line : string) :
  Text.count "010" (key r) = 0%nat ->
  (forall s, value r = Some (PyStr s) -> Text.count "010" s = 0%nat) ->
  (forall s, score r = Some (PyStr s) -> Text.count "010" s = 0%nat) ->
  format_item r = inr line ->
  Text.count "010" line = 0%nat.
Proof.
  intros Hkey Hvalue Hscore Hline.
  apply format_item_inr in Hline as (v & s & Hv & Hs & ->).
  unfold py_format in Hv, Hs.
  apply count_newline_format in Hv, Hs.
  - rewrite !count_app, Hkey, Hv, Hs. reflexivity.
  - destruct (score r) as [x|]; cbn [getattr]; [|discriminate].
    intros t ->. apply Hscore. reflexivity.
  - destruct (value r) as [x|]; cbn [getattr]; [|discriminate].
    intros t ->. apply Hvalue. reflexivity.
Qed.

End LineFacts.

(** X13.  One line per result.  Values and scores are printed with [repr],
    which spells a line break as a backslash and an n, so a line break
    inside a memory never splits its line: when every result can be printed
    and no key (and no value or score that is itself a text) holds a line
    break, the summary has exactly one line break between two results and
    none elsewhere. *)
Theorem search_memories_one_line_per_result
  (S : Type) (St : BaseStore S) (Py : Interpreter) (w : World S)
  query limit user_id (rs : list Item) :
  snd (asearch ["memories"; user_id] (or_else query "") limit (store w)) = inr rs ->
  (forall r, In r rs ->
     Text.count "010" (key r) = 0%nat /\
     (forall s, value r = Some (PyStr s) -> Text.count "010" s = 0%nat) /\
     (forall s, score r = Some (PyStr s) -> Text.count "010" s = 0%nat) /\
     exists line, format_item r = inr line) ->
  exists text,
    snd (run (search_memories query limit user_id) w) = Returned text /\
    Text.count "010" text = (length rs - 1)%nat.
Proof.
  intros Hrs Hclean. rewrite search_memories_outcome, Hrs.
  assert (Hlines : exists lines,
             for_each format_item rs = inr lines /\
             length lines = length rs /\
             Forall (fun p => Text.count "010" p = 0%nat) lines).
  { clear Hrs. induction rs as [|r rs IH].
    - exists []. repeat split. constructor.
    - destruct (Hclean r (or_introl eq_refl)) as (Hk & Hv & Hs & line & Hline).
      destruct IH as (lines & Heach & Hlen & Hall).
      { intros r' Hin. apply Hclean. right. exact Hin. }
      exists (line :: lines). cbn [for_each length]. rewrite Hline, Heach.
      split; [reflexivity|]. split; [congruence|].
      constructor; [|exact Hall].
      exact (LineFacts.count_newline_format_item Py r line Hk Hv Hs Hline). }
  destruct Hlines as (lines & -> & Hlen & Hall).
  destruct lines as [|l ls]; eexists; (split; [reflexivity|]).
  - rewrite <- Hlen. reflexivity.
  - rewrite (LineFacts.count_join_sep _ _ _ Hall), Hlen.
    change (Text.count "010" newline) with 1%nat. lia.
Qed.

Lemma search_memories_one_line_per_result_witness :
  exists text,
    snd (run (search_memories (Py := Sample.python) None 10 "u1") Sample.populated2) =
      Returned text /\
    Text.count "010" text = 1%nat.
Proof.
  apply (search_memories_one_line_per_result _ _ Sample.python Sample.populated2
           None 10 "u1"
           [mkItem (UUID.str (UUID.mk 256))
              (Some (PyDict (memory_value "new" "ctx2" None None
                               "2024-01-01T00:00:00")))
              (Some PyNone);
            mkItem (UUID.str Sample.id)
              (Some (PyDict (memory_value "old" "ctx" (Some 3) (Some ["t"])
                               "2023-12-31T23:59:59")))
              (Some PyNone)]).
  - unfold asearch, DictStore.store, Sample.populated2, Sample.world.
    cbn [store or_else snd]. rewrite sample_search_u1_two. reflexivity.
  - intros r [<-|[<-|[]]]; cbn [key value score];
      (split; [vm_compute; reflexivity|]);
      (split; [intros s; discriminate|]);
      (split; [intros s; discriminate|]);
      eexists; reflexivity.
Defined.

(** ** When printing succeeds *)

Module PrintFacts.

Lemma depth_pos (v : pyval) : (1 <= Repr.depth v)%nat.
Proof. destruct v; cbn [Repr.depth]; lia. Qed.

Lemma for_each_succeeds {A B} (f : A -> exn + B) (l : list A) :
  (exists ys, for_each f l = inr ys) <-> Forall (fun x => exists y, f x = inr y) l.
Proof.
  induction l as [|a l IH]; cbn [for_each].
  - split; [constructor|eexists; reflexivity].
  - unfold and_then. split.
    + intros [ys Hys]. destruct (f a) as [e|b] eqn:Hb; [discriminate|].
      destruct (for_each f l) as [e|bs]; [discriminate|].
      constructor; [eexists; exact Hb|]. apply IH. eexists. reflexivity.
    + intros Hall. inversion Hall as [|x l' [b Hb] Hrest]; subst.
      apply IH in Hrest as [bs Hbs]. rewrite Hb, Hbs. eexists. reflexivity.
Qed.

(** [repr(v)] returns exactly when the nesting of [v] fits the calls that
    are left and every int in it is within the limit on digits. *)
Lemma repr_succeeds (max_digits : Z) (fuel : nat) (v : pyval) :
  (exists text, Repr.repr max_digits fuel v = inr text) <->
  (Repr.depth v <= fuel)%nat /\ Repr.ints_within max_digits v = true.
Proof.
  revert v. induction fuel as [|fuel IH]; intros v.
  { pose proof (depth_pos v). split; [intros [text Ht]; discriminate|lia]. }
  destruct v as [|n|x|s|items|entries].
  - split; [split; [cbn; lia|reflexivity]|eexists; reflexivity].
  - cbn [Repr.repr Repr.depth Repr.ints_within]. unfold Repr.int.
    destruct (_ && _); cbn [negb]; split;
      try (intros [text Ht]; discriminate); try (intros [_ Ht]; discriminate).
    + intros _. split; [lia|reflexivity].
    + intros _. eexists. reflexivity.
  - split; [split; [cbn; lia|reflexivity]|eexists; reflexivity].
  - split; [split; [cbn; lia|reflexivity]|eexists; reflexivity].
  - rewrite repr_list. cbn [Repr.depth Repr.ints_within].
    transitivity (Forall (fun x => exists t, Repr.repr max_digits fuel x = inr t) items).
    { rewrite <- for_each_succeeds. unfold and_then.
      destruct (for_each _ items) as [e|texts]; split;
        try (intros [t Ht]; discriminate); intros _; eexists; reflexivity. }
    induction items as [|x items IHitems]; cbn [fold_right forallb].
    { split; [split; [lia|reflexivity]|constructor]. }
    rewrite Forall_cons, IH, IHitems, andb_true_iff. split.
    + intros ((Hd & Hi) & Hds & His). repeat split; try assumption; lia.
    + intros (Hd & Hi & His). repeat split; try assumption; lia.
  - rewrite repr_dict. cbn [Repr.depth Repr.ints_within].
    transitivity (Forall (fun kv => exists t,
                            Repr.repr max_digits fuel (snd kv) = inr t) entries).
    { transitivity (Forall (fun kv => exists t,
                              and_then (Repr.repr max_digits fuel (PyStr (fst kv)))
                                (fun k =>
                                 and_then (Repr.repr max_digits fuel (snd kv))
                                   (fun x => inr (k +:+ ": " +:+ x))) = inr t)
                           entries).
      { rewrite <- for_each_succeeds. unfold and_then at 1.
        destruct (for_each _ entries) as [e|texts]; split;
          try (intros [t Ht]; discriminate); intros _; eexists; reflexivity. }
      apply Forall_iff. intros [k x]. cbn [fst snd]. unfold and_then. split.
      - intros [t Ht]. destruct (Repr.repr max_digits fuel (PyStr k)); [discriminate|].
        destruct (Repr.repr max_digits fuel x); [discriminate|]. eexists. reflexivity.
      - intros Hx. pose proof Hx as Hfuel. apply IH in Hfuel as [Hfuel _].
        pose proof (depth_pos x). destruct fuel as [|fuel']; [lia|].
        rewrite repr_str. destruct Hx as [t ->]. eexists. reflexivity. }
    induction entries as [|[k x] entries IHentries]; cbn [fold_right forallb fst snd].
    { split; [split; [lia|reflexivity]|constructor]. }
    rewrite Forall_cons, IHentries, andb_true_iff. cbn [snd]. rewrite IH. split.
    + intros ((Hd & Hi) & Hds & His). repeat split; try assumption; lia.
    + intros (Hd & Hi & His). repeat split; try assumption; lia.
Qed.

Lemma format_succeeds (max_digits : Z) (fuel : nat) (v : pyval) :
  (exists text, Repr.format max_digits fuel v = inr text) <->
  (Repr.calls v <= fuel)%nat /\ Repr.ints_within max_digits v = true.
Proof.
  assert (Hother : forall u,
             (exists text,
                match fuel with
                | O => inl (Repr.too_deep "calling a Python object")
                | S O => inl (Repr.too_deep "getting the str of an object")
                | S (S fuel') => Repr.repr max_digits (S fuel') u
                end = inr text) <->
             (S (Repr.depth u) <= fuel)%nat /\ Repr.ints_within max_digits u = true).
  { intros u. pose proof (depth_pos u). destruct fuel as [|[|fuel]].
    - split; [intros [t Ht]; discriminate|lia].
    - split; [intros [t Ht]; discriminate|lia].
    - rewrite repr_succeeds. split; intros [Hd Hi]; (split; [lia|exact Hi]). }
  destruct v as [|n|x|s|items|entries]; cbn [Repr.format Repr.calls];
    try apply Hother.
  - destruct fuel as [|fuel].
    + split; [intros [t Ht]; discriminate|lia].
    + exact (repr_succeeds max_digits (S fuel) (PyInt n)).
  - split; [intros _; split; [lia|reflexivity]|intros _; eexists; reflexivity].
Qed.

Lemma depth_strs (l : list string) :
  Repr.depth (PyList (map PyStr l)) = match l with [] => 1%nat | _ :: _ => 2%nat end.
Proof.
  cbn [Repr.depth]. destruct l as [|t l]; [reflexivity|].
  cbn [map fold_right Repr.depth]. f_equal.
  induction l as [|t' l IH]; [reflexivity|].
  cbn [map fold_right Repr.depth] in IH |- *. lia.
Qed.

Lemma ints_within_strs (max_digits : Z) (l : list string) :
  Repr.ints_within max_digits (PyList (map PyStr l)) = true.
Proof. cbn [Repr.ints_within]. induction l as [|t l IH]; [reflexivity|exact IH]. Qed.

Lemma ints_within_int (max_digits n : Z) :
  Repr.ints_within max_digits (PyInt n) = true <->
  (0 < max_digits -> Z.abs n < 10 ^ max_digits).
Proof.
  cbn [Repr.ints_within]. unfold Repr.more_digits_than.
  destruct (Z.ltb_spec 0 max_digits) as [Hpos|Hnot]; cbn [andb negb].
  - destruct (Z.leb_spec (10 ^ max_digits) (Z.abs n)) as [Hbig|Hsmall]; cbn [negb].
    + split; [discriminate|]. intros Hn. specialize (Hn Hpos). lia.
    + split; [intros _ _; exact Hsmall|reflexivity].
  - split; [intros _ Hpos; lia|reflexivity].
Qed.

End PrintFacts.

(** X14.  When the store's search succeeded, [search_memories] returns a
    text exactly when the interpreter can print the value and the score of
    every result: each is nested no deeper than the calls that are left
    allow, and holds no int of more digits than the interpreter prints.  A
    memory as [upsert_memory] stores it can be printed exactly when three
    more calls are allowed (four when it has tags) and its importance is
    within the digits. *)
Theorem search_memories_returns_iff_printable
  (S : Type) (St : BaseStore S) (Py : Interpreter) (w : World S)
  query limit user_id (rs : list Item) :
  snd (asearch ["memories"; user_id] (or_else query "") limit (store w)) = inr rs ->
  ((exists text, snd (run (search_memories query limit user_id) w) = Returned text) <->
   Forall (fun r => printable (getattr (value r) (PyDict [])) /\
                    printable (getattr (score r) PyNone)) rs) /\
  (forall content context importance tags timestamp,
     printable (PyDict (memory_value content context importance tags timestamp)) <->
     (match tags with Some (_ :: _) => 4 | _ => 3 end <= recursion_remaining)%nat /\
     (forall n, importance = Some n -> 0 < int_max_str_digits ->
                Z.abs n < 10 ^ int_max_str_digits)).
Proof.
  intros Hrs. split.
  - rewrite search_memories_outcome, Hrs.
    transitivity (exists lines, for_each format_item rs = inr lines).
    { destruct (for_each format_item rs) as [e|[|l ls]]; split;
        try (intros [t Ht]; discriminate); intros _; eexists; reflexivity. }
    rewrite PrintFacts.for_each_succeeds. apply Forall_iff. intros r.
    unfold printable. rewrite <- !PrintFacts.format_succeeds. fold (py_format (getattr (value r) (PyDict []))).
    fold (py_format (getattr (score r) PyNone)). split.
    + intros [line Hline]. apply format_item_inr in Hline as (v & s & Hv & Hs & _).
      split; eexists; eassumption.
    + intros [[v Hv] [s Hs]]. eexists. apply format_item_inr.
      exists v, s. repeat split; assumption.
  - intros content context importance tags timestamp. unfold printable, memory_value.
    rewrite or_else_nil.
    set (tagv := py_strlist _). set (impv := py_optint importance).
    cbn [Repr.calls Repr.depth Repr.ints_within fold_right forallb snd andb].
    subst tagv impv. unfold py_strlist.
    rewrite PrintFacts.depth_strs, PrintFacts.ints_within_strs, !andb_true_r.
    assert (Hdepth : Repr.depth (py_optint importance) = 1%nat)
      by (destruct importance; reflexivity).
    rewrite Hdepth.
    assert (Hint : Repr.ints_within int_max_str_digits (py_optint importance) = true <->
                   forall n, importance = Some n -> 0 < int_max_str_digits ->
                             Z.abs n < 10 ^ int_max_str_digits).
    { destruct importance as [n|]; cbn [py_optint].
      - rewrite PrintFacts.ints_within_int. split; [intros Hn m [= <-]; exact Hn|].
        intros Hn. apply Hn. reflexivity.
      - split; [intros _ n; discriminate|reflexivity]. }
    rewrite Hint. destruct tags as [[|t l]|]; cbn [Nat.max]; split;
      intros [Hroom Hdigits]; (split; [lia|exact Hdigits]).
Qed.

Lemma search_memories_returns_iff_printable_witness :
  exists text,
    snd (run (search_memories (Py := Sample.python) None 10 "u1") Sample.populated2) =
      Returned text.
Proof.
  apply (search_memories_returns_iff_printable _ _ Sample.python Sample.populated2
           None 10 "u1"
           [mkItem (UUID.str (UUID.mk 256))
              (Some (PyDict (memory_value "new" "ctx2" None None
                               "2024-01-01T00:00:00")))
              (Some PyNone);
            mkItem (UUID.str Sample.id)
              (Some (PyDict (memory_value "old" "ctx" (Some 3) (Some ["t"])
                               "2023-12-31T23:59:59")))
              (Some PyNone)]).
  - unfold asearch, DictStore.store, Sample.populated2, Sample.world.
    cbn [store or_else snd]. rewrite sample_search_u1_two. reflexivity.
  - repeat constructor; cbn; lia.
Defined.
